(** * LibroFmClient: the sync/download orchestration of libro-client

    A shallow embedding of [src/LibroFmClient.ts] (class [LibroFmClient]) and
    the properties of its two orchestration methods, [getLibrary] and
    [downloadBook].

    The class talks to four collaborators that live in other modules:
    [APIHandler] (the remote gateway), [DownloadCLient] (the transfer),
    [InputHandler] (the prompt) and [logger].  Their answers are taken from
    an environment [Env] of arbitrary functions; every call is recorded as an
    [Event], so that "is never invoked" and "makes exactly n requests" are
    statements about the list of events a run emits.

    The [@LogMethod] decorator only adds log lines around a method and is
    left out. *)

From stdpp Require Import base option list strings gmap fin_maps.
From Stdlib Require Import ZArith Lia.

Open Scope string_scope.
Open Scope Z_scope.

(** ** JavaScript values used by the client *)

(** A thrown value: a JavaScript [Error] with its message and its optional
    [cause] chain.  [new Error(msg)] is [Error msg]; [new Error(msg, {cause})]
    is [ErrorWithCause msg cause]. *)
Inductive exn : Type :=
  | Error (msg : string)
  | ErrorWithCause (msg : string) (cause : exn).

Definition message (e : exn) : string :=
  match e with Error m | ErrorWithCause m _ => m end.

Definition cause_of (e : exn) : option exn :=
  match e with Error _ => None | ErrorWithCause _ c => Some c end.

(** [Boolean(v)] for a value that is a string or [undefined]/[null]: only a
    non-empty string is truthy. *)
Definition Boolean (v : option string) : bool :=
  match v with
  | Some s => negb (String.eqb s "")
  | None => false
  end.

(** [arr.filter(Boolean)] on an array of strings and [null]/[undefined]. *)
Fixpoint filterBoolean (arr : list (option string)) : list string :=
  match arr with
  | [] => []
  | Some s :: rest => if Boolean (Some s) then s :: filterBoolean rest else filterBoolean rest
  | None :: rest => filterBoolean rest
  end.

(** [arr.join(sep)] on an array of strings. *)
Fixpoint join (sep : string) (arr : list string) : string :=
  match arr with
  | [] => ""
  | [s] => s
  | s :: rest => s +:+ sep +:+ join sep rest
  end.

(** ** Data model *)

(** Modelled from the spec: the global type [Audiobook] is declared outside
    [src/].  The spec gives an item a unique identifier, a title, authors as
    "string or ordered list", an optional series name and an optional series
    position (a string in its example); the code reads the fields [isbn],
    [title], [authors], [series] and [series_num], and tests [authors] for
    absence and for [typeof ... === "string"]. *)
Inductive AuthorsField : Type :=
  | AuthorsAbsent
  | AuthorsString (s : string)
  | AuthorsList (l : list string).

Record Audiobook : Type := mkAudiobook {
  isbn : string;
  title : string;
  authors : AuthorsField;
  series : option string;
  series_num : option string
}.

(** Modelled from the spec: [DownloadMetadata] is declared outside [src/];
    the code reads [metadata.isbn] and [metadata.parts[i].url]. *)
Record Part : Type := mkPart { url : string }.

Record DownloadMetadata : Type := mkDownloadMetadata {
  meta_isbn : string;
  parts : list Part
}.

(** [AudiobookMap]: a JavaScript object used as a map from isbn to book. *)
Abbreviation AudiobookMap := (gmap string Audiobook).

(** One answer of [APIHandler.fetchLibrary]. *)
Record LibraryPage : Type := mkLibraryPage {
  audiobooks : list Audiobook;
  total_pages : Z
}.

(** The argument of [State.addBook]. *)
Record DownloadRecord : Type := mkDownloadRecord {
  book : Audiobook;
  path : string;
  meta : DownloadMetadata;
  zippedPaths : option (list string)
}.

(** Modelled from the spec: [Config] ([@/lib/Config]) is outside [src/].
    The spec's Credential/Session Store holds optional username, password,
    authToken and downloadDirectory, and [change(partial)] merges the given
    fields and leaves the others untouched; [authToken = absent] means
    logged out. *)
Record Config : Type := mkConfig {
  authToken : option string;
  username : option string;
  password : option string;
  downloadDir : option string
}.

Definition change_authToken (v : option string) (cfg : Config) : Config :=
  {| authToken := v;
     username := username cfg;
     password := password cfg;
     downloadDir := downloadDir cfg |}.

(** Modelled from the spec: [State] ([@/lib/State]) is outside [src/].  The
    spec's Ledger is keyed by the item's identifier; [hasRecord] tells
    whether a record exists and [putRecord] is an upsert by identifier. *)
Abbreviation State := (gmap string DownloadRecord).

Definition hasBook (id : string) (st : State) : bool :=
  bool_decide (is_Some (st !! id)).

Definition addBook (r : DownloadRecord) (st : State) : State :=
  <[isbn (book r) := r]> st.

(** The client object: [this.config] and [this.state]. *)
Record Client : Type := mkClient {
  config : Config;
  state : State
}.

(** ** Collaborators and the events of a run *)

Inductive Event : Type :=
  | EvFetchLibrary (token : option string) (page : Z)
  | EvFetchDownloadMetadata (token : option string) (id : string)
  | EvRequestOverwrite (b : Audiobook)
  | EvDownloadFiles (filename : string) (urls : list string)
      (token : option string) (keepZip : bool) (dir : option string)
  | EvSaveMetadata (b : Audiobook) (m : DownloadMetadata) (p : string)
  | EvAddBook (r : DownloadRecord)
  | EvLogErrorMessage (msg : string)
  | EvLogErrorObject (error : exn)
  | EvLogVerbose (msg : string).

(** The collaborators.  An answer [inl e] is a rejected promise (the call
    throws [e]); [inr v] is the value it resolves to.  Arguments that the
    code passes without a runtime check ([this.config.authToken],
    [this.config.downloadDir]) keep their possibly-undefined type.

    Modelled from the spec: [addBook_error] says whether the ledger write of
    a record fails; the spec's records are "never partially written", so a
    failed write leaves the ledger as it was.  [requestOverwrite] resolves
    to the user's decision, or rejects like any other awaited call. *)
Record Env : Type := mkEnv {
  fetchLibrary : option string -> Z -> exn + LibraryPage;
  fetchDownloadMetadata : option string -> string -> exn + DownloadMetadata;
  requestOverwrite : Audiobook -> exn + bool;
  downloadFiles : string -> list string -> option string -> bool ->
                  option string -> exn + (string * option (list string));
  saveMetadata : Audiobook -> DownloadMetadata -> string -> exn + unit;
  addBook_error : DownloadRecord -> option exn
}.

Definition isTransfer (ev : Event) : bool :=
  match ev with
  | EvDownloadFiles _ _ _ _ _ | EvSaveMetadata _ _ _ => true
  | _ => false
  end.

Definition isNetwork (ev : Event) : bool :=
  match ev with
  | EvFetchLibrary _ _ | EvFetchDownloadMetadata _ _
  | EvDownloadFiles _ _ _ _ _ => true
  | _ => false
  end.

(** ** The monad of a method body

    A computation reads and updates the client object, emits events, and
    either returns, throws, or (for the [while (true)] loop run with a
    bound on its iterations) runs out of fuel. *)

Inductive result (A : Type) : Type :=
  | Return (a : A)
  | Throw (e : exn)
  | OutOfFuel.
Arguments Return {A} a.
Arguments Throw {A} e.
Arguments OutOfFuel {A}.

Definition M (A : Type) : Type := Client -> result A * Client * list Event.

#[global] Instance M_ret : MRet M := fun A a c => (Return a, c, []).

#[global] Instance M_bind : MBind M := fun A B (f : A -> M B) (m : M A) (c : Client) =>
  match m c with
  | (Return a, c', evs) =>
      let '(r, c'', evs') := f a c' in (r, c'', (evs ++ evs')%list)
  | (Throw e, c', evs) => (Throw e, c', evs)
  | (OutOfFuel, c', evs) => (OutOfFuel, c', evs)
  end.

Definition throw {A} (e : exn) : M A := fun c => (Throw e, c, []).

Definition outOfFuel {A} : M A := fun c => (OutOfFuel, c, []).

Definition emit (ev : Event) : M unit := fun c => (Return tt, c, [ev]).

Definition getConfig : M Config := fun c => (Return (config c), c, []).

Definition getState : M State := fun c => (Return (state c), c, []).

Definition setConfig (cfg : Config) : M unit :=
  fun c => (Return tt, {| config := cfg; state := state c |}, []).

Definition setState (st : State) : M unit :=
  fun c => (Return tt, {| config := config c; state := st |}, []).

(** [try { body } catch (error) { handler }]. *)
Definition tryCatch {A} (body : M A) (handler : exn -> M A) : M A := fun c =>
  match body c with
  | (Throw e, c', evs) =>
      let '(r, c'', evs') := handler e c' in (r, c'', (evs ++ evs')%list)
  | other => other
  end.

(** [await collaborator(...)]: the call is recorded, then resolves or
    throws. *)
Definition await {A} (ev : Event) (answer : exn + A) : M A :=
  emit ev;;
  match answer with
  | inl e => throw e
  | inr v => mret v
  end.

(** Projections of a finished run. *)
Definition outcome {A} (run : result A * Client * list Event) : result A :=
  fst (fst run).
Definition final {A} (run : result A * Client * list Event) : Client :=
  snd (fst run).
Definition events {A} (run : result A * Client * list Event) : list Event :=
  snd run.

(** ** The methods of [LibroFmClient] *)

Section Methods.

Variable env : Env.

(** [for (const book of data.audiobooks) audiobooks[book.isbn] = book;] *)
Definition mergeBooks (acc : AudiobookMap) (bs : list Audiobook) : AudiobookMap :=
  foldl (fun m b => <[isbn b := b]> m) acc bs.

Inductive LoopControl : Type := Break | Continue.

(** One pass through the body of [while (true)] in [getLibrary]: the
    [try] block, whose only awaited call is [fetchLibrary], and its
    [catch]. *)
Definition getLibrary_iteration (acc : AudiobookMap) (page : Z)
  : M (LoopControl * AudiobookMap * Z) :=
  tryCatch
    (cfg ← getConfig;
     data ← await (EvFetchLibrary (authToken cfg) page)
                  (fetchLibrary env (authToken cfg) page);
     let acc' := mergeBooks acc (audiobooks data) in
     if total_pages data <=? page
     then mret (Break, acc', page)
     else mret (Continue, acc', page + 1))
    (fun error =>
       emit (EvLogErrorMessage ("Failed to fetch library: " +:+ message error));;
       cfg ← getConfig;
       setConfig (change_authToken None cfg);;
       mret (Break, acc, page)).

Fixpoint getLibrary_loop (fuel : nat) (acc : AudiobookMap) (page : Z)
  : M AudiobookMap :=
  match fuel with
  | O => outOfFuel
  | S fuel' =>
      '(ctl, acc', page') ← getLibrary_iteration acc page;
      match ctl with
      | Break => mret acc'
      | Continue => getLibrary_loop fuel' acc' page'
      end
  end.

(** [getLibrary()], with at most [fuel] iterations of its loop. *)
Definition getLibrary (fuel : nat) : M AudiobookMap :=
  cfg ← getConfig;
  if negb (Boolean (authToken cfg)) then throw (Error "Not logged in")
  else getLibrary_loop fuel ∅ 1.

(** [private getDownloadMetadata(isbn)]: no [try] around the gateway call. *)
Definition getDownloadMetadata (id : string) : M DownloadMetadata :=
  cfg ← getConfig;
  if negb (Boolean (authToken cfg)) then throw (Error "Not logged in")
  else await (EvFetchDownloadMetadata (authToken cfg) id)
             (fetchDownloadMetadata env (authToken cfg) id).

(** [!book.authors]: [undefined]/[null] and the empty string are falsy; an
    array, even an empty one, is truthy. *)
Definition notAuthors (a : AuthorsField) : bool :=
  match a with
  | AuthorsAbsent => true
  | AuthorsString s => negb (Boolean (Some s))
  | AuthorsList _ => false
  end.

(** [if (!book.authors) throw ...; const authors = typeof book.authors ===
    "string" ? book.authors : book.authors.join(", ")]. *)
Definition authorsText (a : AuthorsField) : exn + string :=
  match a with
  | AuthorsAbsent => inl (Error "No authors found")
  | AuthorsString s =>
      if Boolean (Some s) then inr s else inl (Error "No authors found")
  | AuthorsList l => inr (join ", " l)
  end.

(** [typeof book.series === "string" ? book.series : null] *)
Definition seriesText (b : Audiobook) : option string := series b.

(** [[book.series_num, book.title].filter(Boolean).join(' - ')] *)
Definition titleText (b : Audiobook) : string :=
  join " - " (filterBoolean [series_num b; Some (title b)]).

(** [[authors, series, title].filter(Boolean).join('/')] *)
Definition filenameOf (authorsStr : string) (b : Audiobook) : string :=
  join "/" (filterBoolean [Some authorsStr; seriesText b; Some (titleText b)]).

(** [this.state.addBook(record)]: the write is recorded, then fails or
    updates the ledger. *)
Definition stateAddBook (r : DownloadRecord) : M unit :=
  emit (EvAddBook r);;
  match addBook_error env r with
  | Some e => throw e
  | None => st ← getState; setState (addBook r st)
  end.

(** The [try] block of [downloadBook]. *)
Definition downloadBook_try (b : Audiobook) (metadata : DownloadMetadata)
    (urls : list string) (tok : option string) (keepZip : bool) : M string :=
  authorsStr ← match authorsText (authors b) with
               | inl e => throw e
               | inr s => mret s
               end;
  let filename := filenameOf authorsStr b in
  cfg ← getConfig;
  '(path, zipped_files) ←
     await (EvDownloadFiles filename urls tok keepZip (downloadDir cfg))
           (downloadFiles env filename urls tok keepZip (downloadDir cfg));
  await (EvSaveMetadata b metadata path) (saveMetadata env b metadata path);;
  stateAddBook {| book := b; path := path; meta := metadata;
                  zippedPaths := zipped_files |};;
  mret filename.

(** The [try { ... } catch (error) { ... }] statement of [downloadBook]. *)
Definition downloadBook_tryCatch (b : Audiobook) (metadata : DownloadMetadata)
    (urls : list string) (tok : option string) (keepZip : bool) : M string :=
  tryCatch (downloadBook_try b metadata urls tok keepZip)
    (fun error =>
       emit (EvLogErrorObject error);;
       throw (Error "Failed to download books")).

(** [await InputHandler.requestOverwrite(book)], outside the [try]
    statement: a rejection reaches the caller as it is. *)
Definition askOverwrite (b : Audiobook) : M bool :=
  await (EvRequestOverwrite b) (requestOverwrite env b).

(** [downloadBook(book, overwrite, keepZip)]. *)
Definition downloadBook (b : Audiobook) (overwrite keepZip : bool) : M string :=
  cfg ← getConfig;
  if negb (Boolean (authToken cfg)) then throw (Error "Not logged in")
  else
    let tok := authToken cfg in
    metadata ← getDownloadMetadata (isbn b);
    emit (EvLogVerbose ("Downloading book: " +:+ meta_isbn metadata));;
    let urls := url <$> parts metadata in
    st ← getState;
    if negb overwrite && hasBook (isbn b) st then
      shouldOverwrite ← askOverwrite b;
      if negb shouldOverwrite
      then emit (EvLogVerbose "Skipping download");; mret ""
      else downloadBook_tryCatch b metadata urls tok keepZip
    else downloadBook_tryCatch b metadata urls tok keepZip.

End Methods.

(** ** Session setup: [init] and [login]

    These two methods call collaborators that the other methods never
    call ([InputHandler.requestCredentials], [requestDownloadLocation],
    [APIHandler.fetchLoginData]); their runs carry events of their own. *)

Inductive SetupEvent : Type :=
  | EvRequestCredentials
  | EvFetchLoginData (user pass : option string)
  | EvRequestDownloadLocation
  | EvSetupLogVerbose (msg : string).

(** Modelled from the spec: the object [InputHandler.requestCredentials()]
    resolves to, a username and a password, either of which the user may
    have left out. *)
Record Credentials : Type := mkCredentials {
  cred_username : option string;
  cred_password : option string
}.

(** The collaborators of the setup.  [fetchLoginData] answers with
    [data.access_token] or throws.  The prompts resolve to what the user
    gave, which may be nothing, or reject like any other awaited call. *)
Record SetupEnv : Type := mkSetupEnv {
  fetchLoginData : option string -> option string -> exn + string;
  requestCredentials : exn + Credentials;
  requestDownloadLocation : exn + option string
}.

(** Modelled from the spec: [config.change(credentials)] and
    [config.change({downloadDir})], as [change_authToken] above: the given
    fields replace the stored ones, the others stay. *)
Definition change_credentials (cr : Credentials) (cfg : Config) : Config :=
  {| authToken := authToken cfg;
     username := cred_username cr;
     password := cred_password cr;
     downloadDir := downloadDir cfg |}.

Definition change_downloadDir (v : option string) (cfg : Config) : Config :=
  {| authToken := authToken cfg;
     username := username cfg;
     password := password cfg;
     downloadDir := v |}.

Definition Setup (A : Type) : Type :=
  Client -> result A * Client * list SetupEvent.

#[global] Instance Setup_ret : MRet Setup := fun A a c => (Return a, c, []).

#[global] Instance Setup_bind : MBind Setup :=
  fun A B (f : A -> Setup B) (m : Setup A) (c : Client) =>
  match m c with
  | (Return a, c', evs) =>
      let '(r, c'', evs') := f a c' in (r, c'', (evs ++ evs')%list)
  | (Throw e, c', evs) => (Throw e, c', evs)
  | (OutOfFuel, c', evs) => (OutOfFuel, c', evs)
  end.

Definition setupThrow {A} (e : exn) : Setup A := fun c => (Throw e, c, []).

Definition setupEmit (ev : SetupEvent) : Setup unit :=
  fun c => (Return tt, c, [ev]).

(** [await collaborator(...)] in the setup. *)
Definition setupAwait {A} (ev : SetupEvent) (answer : exn + A) : Setup A :=
  setupEmit ev;;
  match answer with
  | inl e => setupThrow e
  | inr v => mret v
  end.

Definition setupConfig : Setup Config := fun c => (Return (config c), c, []).

Definition setupChange (f : Config -> Config) : Setup unit :=
  fun c => (Return tt, {| config := f (config c); state := state c |}, []).

Definition setupOutcome {A} (run : result A * Client * list SetupEvent) : result A :=
  fst (fst run).
Definition setupFinal {A} (run : result A * Client * list SetupEvent) : Client :=
  snd (fst run).
Definition setupEvents {A} (run : result A * Client * list SetupEvent)
  : list SetupEvent := snd run.

Section Setup.

Variable senv : SetupEnv.

(** [login(username, password)]. *)
Definition login (user pass : option string) : Setup unit :=
  setupEmit (EvFetchLoginData user pass);;
  match fetchLoginData senv user pass with
  | inl e => setupThrow e
  | inr access_token =>
      setupEmit (EvSetupLogVerbose "Got new authToken");;
      setupChange (change_authToken (Some access_token))
  end.

(** [!this.config.username || !this.config.password] *)
Definition noCredentials (cfg : Config) : bool :=
  negb (Boolean (username cfg)) || negb (Boolean (password cfg)).

(** The first statement of [init]: [if (!this.config.authToken) { ... }]. *)
Definition init_session : Setup unit :=
  cfg ← setupConfig;
  if negb (Boolean (authToken cfg)) then
    (if noCredentials cfg then
       credentials ← setupAwait EvRequestCredentials (requestCredentials senv);
       setupChange (change_credentials credentials);;
       cfg' ← setupConfig;
       if noCredentials cfg'
       then setupThrow (Error "Username or password not provided")
       else mret tt
     else mret tt);;
    cfg' ← setupConfig;
    login (username cfg') (password cfg')
  else mret tt.

(** The second statement of [init]: [if (!this.config.downloadDir) { ... }]. *)
Definition init_downloadDir : Setup unit :=
  cfg ← setupConfig;
  if negb (Boolean (downloadDir cfg)) then
    dir ← setupAwait EvRequestDownloadLocation (requestDownloadLocation senv);
    setupChange (change_downloadDir dir);;
    cfg' ← setupConfig;
    if negb (Boolean (downloadDir cfg'))
    then setupThrow (Error "Download directory not provided")
    else mret tt
  else mret tt.

(** [init()]. *)
Definition init : Setup unit :=
  init_session;; init_downloadDir.

End Setup.

(** ** Notions used in the statements *)

(** The requests for [n] consecutive pages from [first] on. *)
Definition pageRequests (tok : option string) (first : Z) (n : nat) : list Event :=
  (fun i => EvFetchLibrary tok (first + Z.of_nat i)) <$> seq 0 n.

(** The snapshot after merging whole pages, in order. *)
Definition mergePages (acc : AudiobookMap) (ps : list LibraryPage) : AudiobookMap :=
  mergeBooks acc (concat (audiobooks <$> ps)).

(** The error every caught failure is replaced with. *)
Definition DownloadFailed : exn := Error "Failed to download books".

(** The run of the [catch] block after the [try] block emitted [evs] and
    threw [e]. *)
Definition caught (c : Client) (evs : list Event) (e : exn)
  : result string * Client * list Event :=
  (Throw DownloadFailed, c, (evs ++ [EvLogErrorObject e])%list).

(** The events of steps that precede the [try] statement. *)
Definition resolved (tok : option string) (b : Audiobook) (m : DownloadMetadata)
  : list Event :=
  [EvFetchDownloadMetadata tok (isbn b);
   EvLogVerbose ("Downloading book: " +:+ meta_isbn m)].

(** The decision at the overwrite prompt, when it is given. *)
Definition declines (env : Env) (b : Audiobook) : bool :=
  match requestOverwrite env b with inr false => true | _ => false end.

Definition agrees (env : Env) (b : Audiobook) : bool :=
  match requestOverwrite env b with inr true => true | _ => false end.

(** The download is skipped: the user is asked and says no. *)
Definition isSkipped (env : Env) (b : Audiobook) (ov : bool) (c : Client) : bool :=
  negb ov && hasBook (isbn b) (state c) && declines env b.

(** The download goes ahead: the user is not asked, or says yes. *)
Definition goesAhead (env : Env) (b : Audiobook) (ov : bool) (c : Client) : bool :=
  negb (negb ov && hasBook (isbn b) (state c)) || agrees env b.

(** Event classes counted in the statements. *)
Definition isPrompt (ev : Event) : bool :=
  match ev with EvRequestOverwrite _ => true | _ => false end.

Definition isDownloadFiles (ev : Event) : bool :=
  match ev with EvDownloadFiles _ _ _ _ _ => true | _ => false end.

Definition isLedgerWrite (ev : Event) : bool :=
  match ev with EvAddBook _ => true | _ => false end.

(** How many events of a class a run emitted. *)
Definition count {E : Type} (class : E -> bool) (evs : list E) : nat :=
  length (List.filter class evs).

Definition isLogin (ev : SetupEvent) : bool :=
  match ev with EvFetchLoginData _ _ => true | _ => false end.

Definition isCredentialsPrompt (ev : SetupEvent) : bool :=
  match ev with EvRequestCredentials => true | _ => false end.

Definition isLocationPrompt (ev : SetupEvent) : bool :=
  match ev with EvRequestDownloadLocation => true | _ => false end.

(** The client after [config.change] of one part of the session. *)
Definition withConfig (f : Config -> Config) (c : Client) : Client :=
  {| config := f (config c); state := state c |}.

(** ** Sample data *)

Module Sample.

Definition bookA : Audiobook :=
  {| isbn := "9780000000001"; title := "The Book";
     authors := AuthorsList ["A. Author"; "B. Writer"];
     series := Some "Saga"; series_num := Some "2" |}.

Definition bookB : Audiobook :=
  {| isbn := "9780000000002"; title := "The Book";
     authors := AuthorsList ["A. Author"];
     series := None; series_num := None |}.

Definition bookC : Audiobook :=
  {| isbn := "9780000000003"; title := "Third";
     authors := AuthorsString "C. Scribe";
     series := None; series_num := None |}.

Definition loggedIn : Client :=
  {| config := {| authToken := Some "tok"; username := None;
                  password := None; downloadDir := Some "/books" |};
     state := ∅ |}.

Definition failure : exn := Error "503".

(** A gateway with two pages, [[A, B]] and [[C]], each reporting two
    pages. *)
Definition twoPages : Env :=
  {| fetchLibrary := fun _ page =>
       if page =? 1 then inr {| audiobooks := [bookA; bookB]; total_pages := 2 |}
       else if page =? 2 then inr {| audiobooks := [bookC]; total_pages := 2 |}
       else inl failure;
     fetchDownloadMetadata := fun _ id =>
       inr {| meta_isbn := id; parts := [ {| url := "u1" |}; {| url := "u2" |} ] |};
     requestOverwrite := fun _ => inr false;
     downloadFiles := fun filename _ _ _ dir =>
       inr (default "" dir +:+ "/" +:+ filename, None);
     saveMetadata := fun _ _ _ => inr tt;
     addBook_error := fun _ => None |}.

(** A gateway whose first page reports three pages and whose second page
    request fails. *)
Definition secondPageFails : Env :=
  {| fetchLibrary := fun _ page =>
       if page =? 1 then inr {| audiobooks := [bookA; bookB]; total_pages := 3 |}
       else inl failure;
     fetchDownloadMetadata := fetchDownloadMetadata twoPages;
     requestOverwrite := requestOverwrite twoPages;
     downloadFiles := downloadFiles twoPages;
     saveMetadata := saveMetadata twoPages;
     addBook_error := addBook_error twoPages |}.

(** A gateway that cannot resolve download metadata. *)
Definition metadataFailure : exn :=
  ErrorWithCause "Failed to fetch download metadata" failure.

Definition metadataFails : Env :=
  {| fetchLibrary := fetchLibrary twoPages;
     fetchDownloadMetadata := fun _ _ => inl metadataFailure;
     requestOverwrite := requestOverwrite twoPages;
     downloadFiles := downloadFiles twoPages;
     saveMetadata := saveMetadata twoPages;
     addBook_error := addBook_error twoPages |}.

(** A gateway whose metadata resolution fails with a bare error. *)
Definition metadataFailsBare : Env :=
  {| fetchLibrary := fetchLibrary twoPages;
     fetchDownloadMetadata := fun _ _ => inl failure;
     requestOverwrite := requestOverwrite twoPages;
     downloadFiles := downloadFiles twoPages;
     saveMetadata := saveMetadata twoPages;
     addBook_error := addBook_error twoPages |}.

(** A transfer that fails. *)
Definition transferFails : Env :=
  {| fetchLibrary := fetchLibrary twoPages;
     fetchDownloadMetadata := fetchDownloadMetadata twoPages;
     requestOverwrite := requestOverwrite twoPages;
     downloadFiles := fun _ _ _ _ _ => inl failure;
     saveMetadata := saveMetadata twoPages;
     addBook_error := addBook_error twoPages |}.

(** A user who answers yes at the overwrite prompt. *)
Definition overwriteYes : Env :=
  {| fetchLibrary := fetchLibrary twoPages;
     fetchDownloadMetadata := fetchDownloadMetadata twoPages;
     requestOverwrite := fun _ => inr true;
     downloadFiles := downloadFiles twoPages;
     saveMetadata := saveMetadata twoPages;
     addBook_error := addBook_error twoPages |}.

Definition metadataA : DownloadMetadata :=
  {| meta_isbn := isbn bookA; parts := [ {| url := "u1" |}; {| url := "u2" |} ] |}.

Definition recordA : DownloadRecord :=
  {| book := bookA; path := "/old/place"; meta := metadataA;
     zippedPaths := None |}.

(** A client that has downloaded [bookA] before. *)
Definition hasA : Client :=
  {| config := config loggedIn; state := {[ isbn bookA := recordA ]} |}.

(** Items without usable authors. *)
Definition noAuthors : Audiobook :=
  {| isbn := isbn bookA; title := "Anonymous"; authors := AuthorsAbsent;
     series := None; series_num := None |}.

Definition emptyAuthorString : Audiobook :=
  {| isbn := "9780000000005"; title := "Anonymous"; authors := AuthorsString "";
     series := None; series_num := None |}.

Definition emptyAuthorList : Audiobook :=
  {| isbn := "9780000000006"; title := "Anonymous"; authors := AuthorsList [];
     series := None; series_num := None |}.

(** An item whose every path component is empty. *)
Definition blank : Audiobook :=
  {| isbn := "9780000000007"; title := ""; authors := AuthorsList [];
     series := None; series_num := None |}.

End Sample.

(** ** Sample data for the setup and for whole passes *)

Module SetupSample.

(** A gateway that answers every page and always reports one page more. *)
Definition endless : Env :=
  {| fetchLibrary := fun _ page =>
       inr {| audiobooks := []; total_pages := page + 1 |};
     fetchDownloadMetadata := fetchDownloadMetadata Sample.twoPages;
     requestOverwrite := requestOverwrite Sample.twoPages;
     downloadFiles := downloadFiles Sample.twoPages;
     saveMetadata := saveMetadata Sample.twoPages;
     addBook_error := addBook_error Sample.twoPages |}.

(** A user who types credentials and a download location, and a gateway
    that accepts them. *)
Definition accepts : SetupEnv :=
  {| fetchLoginData := fun _ _ => inr "fresh";
     requestCredentials :=
       inr {| cred_username := Some "user"; cred_password := Some "secret" |};
     requestDownloadLocation := inr (Some "/books") |}.

(** A gateway that rejects the login. *)
Definition rejects : SetupEnv :=
  {| fetchLoginData := fun _ _ => inl Sample.failure;
     requestCredentials := requestCredentials accepts;
     requestDownloadLocation := requestDownloadLocation accepts |}.

(** A client started without any configuration. *)
Definition blankClient : Client :=
  {| config := {| authToken := None; username := None; password := None;
                  downloadDir := None |};
     state := ∅ |}.

(** A configured client: token, credentials and download directory. *)
Definition returning : Client :=
  {| config := {| authToken := Some "tok"; username := Some "user";
                  password := Some "secret"; downloadDir := Some "/books" |};
     state := ∅ |}.

(** A client whose stored token is the empty string. *)
Definition emptyToken : Client :=
  {| config := {| authToken := Some ""; username := Some "user";
                  password := Some "secret"; downloadDir := Some "/books" |};
     state := ∅ |}.

End SetupSample.

(** ** Reasoning about runs *)

Ltac unfold_monad :=
  unfold mbind, M_bind, mret, M_ret, await, emit, throw, outOfFuel, tryCatch,
    askOverwrite, stateAddBook,
    getConfig, getState, setConfig, setState, outcome, final, events in *.

Ltac run := unfold_monad; simpl in *.

Lemma Boolean_Some (s : string) : Boolean (Some s) = true <-> s <> "".
Proof.
  unfold Boolean. destruct (String.eqb_spec s ""); simpl; split; congruence.
Qed.

Lemma client_eta (c : Client) : {| config := config c; state := state c |} = c.
Proof. by destruct c. Qed.

Section LibraryFacts.

Variable env : Env.

Lemma mergeBooks_app (acc : AudiobookMap) (xs ys : list Audiobook) :
  mergeBooks acc (xs ++ ys)%list = mergeBooks (mergeBooks acc xs) ys.
Proof. unfold mergeBooks. apply foldl_app. Qed.

Lemma mergePages_cons (acc : AudiobookMap) (p : LibraryPage) (ps : list LibraryPage) :
  mergePages acc (p :: ps) = mergePages (mergeBooks acc (audiobooks p)) ps.
Proof. unfold mergePages. simpl. apply mergeBooks_app. Qed.

(** Key by key, the merge keeps the last book carrying that isbn. *)
Lemma mergeBooks_lookup (bs : list Audiobook) (acc : AudiobookMap) (k : string) :
  mergeBooks acc bs !! k =
  match last (filter (fun b => isbn b = k) bs) with
  | Some b => Some b
  | None => acc !! k
  end.
Proof.
  induction bs as [|b bs IH] using rev_ind; [done|].
  rewrite mergeBooks_app, filter_app. simpl.
  rewrite filter_cons, filter_nil.
  destruct (decide (isbn b = k)) as [Heq|Hne].
  - rewrite last_snoc. subst k. apply lookup_insert_eq.
  - rewrite app_nil_r, lookup_insert_ne by done. apply IH.
Qed.

Lemma getLibrary_iteration_ok (acc : AudiobookMap) (page : Z) (c : Client)
    (data : LibraryPage) :
  fetchLibrary env (authToken (config c)) page = inr data ->
  getLibrary_iteration env acc page c =
  (Return (if total_pages data <=? page
           then (Break, mergeBooks acc (audiobooks data), page)
           else (Continue, mergeBooks acc (audiobooks data), page + 1)),
   c, [EvFetchLibrary (authToken (config c)) page]).
Proof.
  intros Hfetch. unfold getLibrary_iteration. run. rewrite Hfetch. run.
  by destruct (total_pages data <=? page).
Qed.

Lemma getLibrary_iteration_fail (acc : AudiobookMap) (page : Z) (c : Client)
    (e : exn) :
  fetchLibrary env (authToken (config c)) page = inl e ->
  getLibrary_iteration env acc page c =
  (Return (Break, acc, page),
   {| config := change_authToken None (config c); state := state c |},
   [EvFetchLibrary (authToken (config c)) page;
    EvLogErrorMessage ("Failed to fetch library: " +:+ message e)]).
Proof.
  intros Hfetch. unfold getLibrary_iteration. run. rewrite Hfetch. by run.
Qed.

(** While the pages in [ps] arrive and each asks for more, the loop eats
    them one per iteration and carries on behind them. *)
Lemma getLibrary_loop_pages (ps : list LibraryPage) :
  forall (acc : AudiobookMap) (page : Z) (c : Client) (fuel : nat),
  (forall (i : nat) p, ps !! i = Some p ->
     fetchLibrary env (authToken (config c)) (page + Z.of_nat i) = inr p /\
     page + Z.of_nat i < total_pages p) ->
  getLibrary_loop env (length ps + fuel) acc page c =
  let '(r, c', evs) :=
    getLibrary_loop env fuel (mergePages acc ps) (page + Z.of_nat (length ps)) c in
  (r, c', (pageRequests (authToken (config c)) page (length ps) ++ evs)%list).
Proof.
  induction ps as [|p ps IH]; intros acc page c fuel Hps.
  - simpl. rewrite Z.add_0_r. unfold mergePages; simpl.
    by destruct (getLibrary_loop env fuel acc page c) as [[r c'] evs].
  - destruct (Hps 0%nat p eq_refl) as [Hfetch Hmore].
    rewrite Z.add_0_r in Hfetch, Hmore.
    cbn [length Nat.add getLibrary_loop].
    unfold mbind at 1, M_bind at 1.
    rewrite (getLibrary_iteration_ok _ _ _ _ Hfetch).
    destruct (Z.leb_spec (total_pages p) page) as [Hle|_]; [lia|].
    rewrite IH.
    + rewrite mergePages_cons.
      replace (page + 1 + Z.of_nat (length ps))
        with (page + Z.of_nat (S (length ps))) by lia.
      destruct (getLibrary_loop env fuel _ _ c) as [[r c'] evs].
      f_equal. unfold pageRequests. cbn [seq fmap list_fmap].
      rewrite Z.add_0_r. simpl. do 2 f_equal.
      rewrite <- seq_shift, <- !list_fmap_compose.
      apply list_fmap_ext. intros _ j _. simpl. f_equal. lia.
    + intros i q Hq. specialize (Hps (S i) q Hq).
      replace (page + 1 + Z.of_nat i) with (page + Z.of_nat (S i)) by lia.
      exact Hps.
Qed.

End LibraryFacts.

(** ** [getLibrary]: pagination *)

Section LibraryTheorems.

Variable env : Env.

Lemma getLibrary_logged_in (fuel : nat) (c : Client) :
  Boolean (authToken (config c)) = true ->
  getLibrary env fuel c = getLibrary_loop env fuel ∅ 1 c.
Proof.
  intros Htok. unfold getLibrary. run. rewrite Htok. simpl.
  by destruct (getLibrary_loop env fuel ∅ 1 c) as [[r c'] evs].
Qed.

(** An iteration never throws and never times out: its [catch] absorbs
    the only failure the [try] block can meet. *)
Lemma getLibrary_iteration_returns (acc : AudiobookMap) (page : Z) (c : Client) :
  exists v c' evs, getLibrary_iteration env acc page c = (Return v, c', evs).
Proof.
  destruct (fetchLibrary env (authToken (config c)) page) as [e|data] eqn:Hfetch.
  - rewrite (getLibrary_iteration_fail _ _ _ _ _ Hfetch). eauto.
  - rewrite (getLibrary_iteration_ok _ _ _ _ _ Hfetch). eauto.
Qed.

Lemma getLibrary_loop_no_throw (fuel : nat) :
  forall (acc : AudiobookMap) (page : Z) (c : Client) (e : exn),
  outcome (getLibrary_loop env fuel acc page c) <> Throw e.
Proof.
  induction fuel as [|fuel IH]; intros acc page c e; [done|].
  cbn [getLibrary_loop]. unfold mbind at 1, M_bind at 1.
  destruct (getLibrary_iteration_returns acc page c) as ([[ctl acc'] page'] & c' & evs & ->).
  destruct ctl.
  - done.
  - specialize (IH acc' page' c' e).
    destruct (getLibrary_loop env fuel acc' page' c') as [[r c''] evs'].
    exact IH.
Qed.

(** C2.  With a valid token and a gateway that answers the pages
    [1 .. n] (the first [n - 1] each reporting more pages than their own
    number, the last one not), [getLibrary] returns, given fuel for [n]
    iterations, the merge of all their items in page order; key by key
    that merge holds the last item carrying the identifier, so a later
    item overwrites an earlier one; the run consists of exactly the [n]
    requests for pages [1 .. n], starting at page 1, and leaves the
    client as it was. *)
Theorem getLibrary_merges_all_pages (c : Client) (tok : string)
    (ps : list LibraryPage) (lastp : LibraryPage) (fuel : nat) :
  authToken (config c) = Some tok -> tok <> "" ->
  (forall (i : nat) p, (ps ++ [lastp])%list !! i = Some p ->
     fetchLibrary env (Some tok) (1 + Z.of_nat i) = inr p) ->
  (forall (i : nat) p, ps !! i = Some p -> 1 + Z.of_nat i < total_pages p) ->
  total_pages lastp <= 1 + Z.of_nat (length ps) ->
  (length ps < fuel)%nat ->
  let run := getLibrary env fuel c in
  let items := concat (audiobooks <$> (ps ++ [lastp])%list) in
  outcome run = Return (mergeBooks ∅ items) /\
  (forall k, mergeBooks ∅ items !! k = last (filter (fun b => isbn b = k) items)) /\
  events run = pageRequests (Some tok) 1 (S (length ps)) /\
  final run = c.
Proof.
  intros Htok Hne Hfetch Hmore Hlast Hfuel run items.
  assert (Hitems : mergeBooks ∅ items =
                   mergeBooks (mergePages ∅ ps) (audiobooks lastp)).
  { unfold items, mergePages. rewrite fmap_app, concat_app. simpl.
    by rewrite app_nil_r, mergeBooks_app. }
  assert (Hrun : run =
    (Return (mergeBooks ∅ items), c, pageRequests (Some tok) 1 (S (length ps)))).
  { unfold run. rewrite getLibrary_logged_in
      by (rewrite Htok; by apply Boolean_Some).
    replace fuel with (length ps + S (fuel - S (length ps)))%nat by lia.
    rewrite getLibrary_loop_pages.
    - cbn [getLibrary_loop]. unfold mbind at 1, M_bind at 1.
      rewrite (getLibrary_iteration_ok env _ _ _ lastp).
      + destruct (Z.leb_spec (total_pages lastp) (1 + Z.of_nat (length ps))) as [_|Hlt];
          [|lia].
        unfold mret, M_ret. rewrite Htok, Hitems. f_equal.
        unfold pageRequests. by rewrite seq_S, fmap_app.
      + rewrite Htok. apply Hfetch.
        rewrite lookup_app_r, Nat.sub_diag by lia. done.
    - intros i p Hp. rewrite Htok. split; [|by apply Hmore].
      apply Hfetch. by apply lookup_app_l_Some. }
  rewrite Hrun. repeat split.
  intros k. rewrite mergeBooks_lookup, lookup_empty.
  by destruct (last _).
Qed.

End LibraryTheorems.

(** The spec's pagination example: pages [[A, B]] and [[C]], each
    reporting two pages, give the snapshot of A, B and C in two
    requests. *)
Lemma getLibrary_merges_all_pages_witness :
  let run := getLibrary Sample.twoPages 2 Sample.loggedIn in
  outcome run =
    Return (<[isbn Sample.bookC := Sample.bookC]>
              (<[isbn Sample.bookB := Sample.bookB]>
                 (<[isbn Sample.bookA := Sample.bookA]> ∅))) /\
  events run = [EvFetchLibrary (Some "tok") 1; EvFetchLibrary (Some "tok") 2] /\
  final run = Sample.loggedIn.
Proof.
  destruct (getLibrary_merges_all_pages Sample.twoPages Sample.loggedIn "tok"
              [ {| audiobooks := [Sample.bookA; Sample.bookB]; total_pages := 2 |} ]
              {| audiobooks := [Sample.bookC]; total_pages := 2 |} 2)
    as (Hout & _ & Hev & Hfin).
  - reflexivity.
  - discriminate.
  - intros [|[|i]] p; simpl; intros [= <-]; reflexivity.
  - intros [|i] p; simpl; intros [= <-]; reflexivity.
  - simpl. lia.
  - simpl. lia.
  - intros run. split; [exact Hout | split; [exact Hev | exact Hfin]].
Defined.

Section LibraryFailure.

Variable env : Env.

(** C1.  With a valid token [getLibrary] never throws, whatever the
    gateway does.  When the pages [1 .. k] arrive, each asking for more,
    and the request for page [k + 1] fails, [getLibrary] returns, given
    fuel for [k + 1] iterations, the merge of the [k] pages fetched so
    far; the client ends with its auth token cleared and nothing else
    changed; and the failed request is the last one made: the run is the
    requests for pages [1 .. k + 1] followed by the log line. *)
Theorem getLibrary_page_failure (c : Client) (fuel : nat) :
  Boolean (authToken (config c)) = true ->
  (forall e, outcome (getLibrary env fuel c) <> Throw e) /\
  (forall (ps : list LibraryPage) (e : exn),
     (forall (i : nat) p, ps !! i = Some p ->
        fetchLibrary env (authToken (config c)) (1 + Z.of_nat i) = inr p /\
        1 + Z.of_nat i < total_pages p) ->
     fetchLibrary env (authToken (config c)) (1 + Z.of_nat (length ps)) = inl e ->
     (length ps < fuel)%nat ->
     let run := getLibrary env fuel c in
     outcome run = Return (mergePages ∅ ps) /\
     authToken (config (final run)) = None /\
     final run = {| config := change_authToken None (config c); state := state c |} /\
     events run =
       (pageRequests (authToken (config c)) 1 (S (length ps)) ++
        [EvLogErrorMessage ("Failed to fetch library: " +:+ message e)])%list).
Proof.
  intros Htok. rewrite getLibrary_logged_in by done. split.
  - apply getLibrary_loop_no_throw.
  - intros ps e Hps Hfail Hfuel run.
    assert (Hrun : run =
      (Return (mergePages ∅ ps),
       {| config := change_authToken None (config c); state := state c |},
       (pageRequests (authToken (config c)) 1 (S (length ps)) ++
        [EvLogErrorMessage ("Failed to fetch library: " +:+ message e)])%list)).
    { unfold run.
      replace fuel with (length ps + S (fuel - S (length ps)))%nat by lia.
      rewrite getLibrary_loop_pages by done.
      cbn [getLibrary_loop]. unfold mbind at 1, M_bind at 1.
      rewrite (getLibrary_iteration_fail env _ _ _ e Hfail).
      unfold mret, M_ret. f_equal.
      unfold pageRequests. rewrite seq_S, fmap_app. simpl.
      by rewrite <- app_assoc. }
    by rewrite Hrun.
Qed.

(** Whenever a request made by the loop fails, the loop ends with the
    auth token cleared. *)
Lemma getLibrary_loop_failed_request (fuel : nat) :
  forall (acc : AudiobookMap) (page : Z) (c : Client) (p : Z) (e : exn),
  In (EvFetchLibrary (authToken (config c)) p)
     (events (getLibrary_loop env fuel acc page c)) ->
  fetchLibrary env (authToken (config c)) p = inl e ->
  authToken (config (final (getLibrary_loop env fuel acc page c))) = None.
Proof.
  induction fuel as [|fuel IH]; intros acc page c p e Hin Hfail; [done|].
  revert Hin. cbn [getLibrary_loop]. unfold mbind at 1 2, M_bind at 1 2.
  destruct (fetchLibrary env (authToken (config c)) page) as [e'|data] eqn:Hfetch.
  - rewrite (getLibrary_iteration_fail env _ _ _ _ Hfetch). done.
  - rewrite (getLibrary_iteration_ok env _ _ _ _ Hfetch).
    destruct (total_pages data <=? page).
    + simpl. intros [[= <-]|[]]. congruence.
    + specialize (IH (mergeBooks acc (audiobooks data)) (page + 1) c p e).
      destruct (getLibrary_loop env fuel _ _ c) as [[r c''] evs'].
      simpl in *. intros [[= <-]|Hin]; [congruence|]. by apply IH.
Qed.

End LibraryFailure.

(** The spec's failure example: page 1 arrives reporting three pages, the
    request for page 2 fails; the snapshot holds page 1's items only and
    the token is cleared. *)
Lemma getLibrary_page_failure_witness :
  let run := getLibrary Sample.secondPageFails 5 Sample.loggedIn in
  (forall e, outcome run <> Throw e) /\
  outcome run =
    Return (<[isbn Sample.bookB := Sample.bookB]>
              (<[isbn Sample.bookA := Sample.bookA]> ∅)) /\
  authToken (config (final run)) = None /\
  events run = [EvFetchLibrary (Some "tok") 1; EvFetchLibrary (Some "tok") 2;
                EvLogErrorMessage "Failed to fetch library: 503"].
Proof.
  destruct (getLibrary_page_failure Sample.secondPageFails Sample.loggedIn 5 eq_refl)
    as [Hno Hfail].
  destruct (Hfail [ {| audiobooks := [Sample.bookA; Sample.bookB]; total_pages := 3 |} ]
              Sample.failure) as (Hout & Htok & _ & Hev).
  - intros [|i] p; simpl; intros [= <-]. split; [reflexivity | simpl; lia].
  - reflexivity.
  - simpl. lia.
  - intros run. split; [exact Hno | split; [exact Hout | split; [exact Htok | exact Hev]]].
Defined.

(** ** [downloadBook]: what a run looks like *)

Section DownloadFacts.

Variable env : Env.

(** The [try]/[catch] statement, answer by answer. *)
Lemma downloadBook_tryCatch_run (b : Audiobook) (m : DownloadMetadata)
    (urls : list string) (tok : option string) (kz : bool) (c : Client) :
  downloadBook_tryCatch env b m urls tok kz c =
  match authorsText (authors b) with
  | inl e => caught c [] e
  | inr a =>
      let filename := filenameOf a b in
      let dir := downloadDir (config c) in
      let df := EvDownloadFiles filename urls tok kz dir in
      match downloadFiles env filename urls tok kz dir with
      | inl e => caught c [df] e
      | inr (p, zipped_files) =>
          let sm := EvSaveMetadata b m p in
          let r := {| book := b; path := p; meta := m;
                      zippedPaths := zipped_files |} in
          match saveMetadata env b m p with
          | inl e => caught c [df; sm] e
          | inr _ =>
              match addBook_error env r with
              | Some e => caught c [df; sm; EvAddBook r] e
              | None =>
                  (Return filename,
                   {| config := config c; state := addBook r (state c) |},
                   [df; sm; EvAddBook r])
              end
          end
      end
  end.
Proof.
  unfold downloadBook_tryCatch, downloadBook_try, caught.
  destruct (authorsText (authors b)) as [e|a]; [by run|].
  run.
  destruct (downloadFiles env _ urls tok kz _) as [e|[p z]]; [by run|].
  run.
  destruct (saveMetadata env b m p) as [e|[]]; [by run|].
  run.
  destruct (addBook_error env _) as [e|]; by run.
Qed.

Lemma downloadBook_not_logged_in (b : Audiobook) (ov kz : bool) (c : Client) :
  Boolean (authToken (config c)) = false ->
  downloadBook env b ov kz c = (Throw (Error "Not logged in"), c, []).
Proof. intros Htok. unfold downloadBook. run. by rewrite Htok. Qed.

Lemma downloadBook_metadata_fails (b : Audiobook) (ov kz : bool) (c : Client)
    (e : exn) :
  Boolean (authToken (config c)) = true ->
  fetchDownloadMetadata env (authToken (config c)) (isbn b) = inl e ->
  downloadBook env b ov kz c =
  (Throw e, c, [EvFetchDownloadMetadata (authToken (config c)) (isbn b)]).
Proof.
  intros Htok Hmeta. unfold downloadBook, getDownloadMetadata. run.
  rewrite Htok. run. rewrite Htok. run. by rewrite Hmeta.
Qed.

(** With a token and resolved metadata, the rest of [downloadBook]. *)
Lemma downloadBook_resolved (b : Audiobook) (ov kz : bool) (c : Client)
    (m : DownloadMetadata) :
  Boolean (authToken (config c)) = true ->
  fetchDownloadMetadata env (authToken (config c)) (isbn b) = inr m ->
  let tok := authToken (config c) in
  let download := downloadBook_tryCatch env b m (url <$> parts m) tok kz c in
  downloadBook env b ov kz c =
  if negb ov && hasBook (isbn b) (state c) then
    match requestOverwrite env b with
    | inl e => (Throw e, c, (resolved tok b m ++ [EvRequestOverwrite b])%list)
    | inr true =>
        (outcome download, final download,
         (resolved tok b m ++ EvRequestOverwrite b :: events download)%list)
    | inr false =>
        (Return "", c,
         (resolved tok b m ++
          [EvRequestOverwrite b; EvLogVerbose "Skipping download"])%list)
    end
  else
    (outcome download, final download, (resolved tok b m ++ events download)%list).
Proof.
  intros Htok Hmeta tok download. unfold downloadBook, getDownloadMetadata. run.
  rewrite Htok. run. rewrite Htok. run. rewrite Hmeta. run.
  subst download. fold tok.
  destruct (negb ov && hasBook (isbn b) (state c)); run.
  - destruct (requestOverwrite env b) as [e|[]]; run; [done| |done].
    by destruct (downloadBook_tryCatch env b m _ tok kz c) as [[r c'] evs].
  - by destruct (downloadBook_tryCatch env b m _ tok kz c) as [[r c'] evs].
Qed.

End DownloadFacts.

(** Splits a run of [downloadBook] into its paths: not logged in; metadata
    resolution failed; the prompt rejected; skipped at the prompt; and,
    for a download that
    goes ahead (with or without the prompt), the five ways through the
    [try] statement. *)
Ltac download_paths env b ov kz c :=
  let Htok := fresh "Htok" in
  let Hmeta := fresh "Hmeta" in
  let Hgate := fresh "Hgate" in
  let Hask := fresh "Hask" in
  let Hauthors := fresh "Hauthors" in
  let Hfiles := fresh "Hfiles" in
  let Hsave := fresh "Hsave" in
  let Hledger := fresh "Hledger" in
  let Hrun := fresh "Hrun" in
  let body :=
    (rewrite downloadBook_tryCatch_run;
     destruct (authorsText (authors b)) as [?e|?a] eqn:Hauthors;
     [|cbv zeta;
       destruct (downloadFiles env _ _ _ kz _) as [?e|[?p ?z]] eqn:Hfiles;
       [|destruct (saveMetadata env b _ _) as [?e|[]] eqn:Hsave;
         [|destruct (addBook_error env _) as [?e|] eqn:Hledger]]]) in
  destruct (Boolean (authToken (config c))) eqn:Htok;
  [ destruct (fetchDownloadMetadata env (authToken (config c)) (isbn b))
      as [?e|?m] eqn:Hmeta;
    [ rewrite (downloadBook_metadata_fails env b ov kz c _ Htok Hmeta)
    | pose proof (downloadBook_resolved env b ov kz c _ Htok Hmeta) as Hrun;
      cbv zeta in Hrun; rewrite Hrun; clear Hrun;
      destruct (negb ov && hasBook (isbn b) (state c)) eqn:Hgate;
      [ destruct (requestOverwrite env b) as [?e|[]] eqn:Hask; [|body|]
      | body ] ]
  | rewrite (downloadBook_not_logged_in env b ov kz c Htok) ];
  unfold caught, resolved, outcome, final, events, isSkipped, goesAhead,
    declines, agrees;
  rewrite ?Hgate, ?Hask; cbn [fst snd app negb andb orb].

(** Closes the side goals left by [download_paths]: membership in an
    explicit list of events, and equations between answers. *)
Ltac settle :=
  unfold not; intros; simpl in *;
  repeat match goal with
         | H : _ \/ _ |- _ => destruct H
         | H : _ /\ _ |- _ => destruct H
         | H : False |- _ => destruct H
         end;
  simplify_eq; try done; try congruence.

Section SessionToken.

Variable env : Env.

(** [downloadBook] never touches the session, however it ends. *)
Lemma downloadBook_config (b : Audiobook) (ov kz : bool) (c : Client) :
  config (final (downloadBook env b ov kz c)) = config c.
Proof. download_paths env b ov kz c; reflexivity. Qed.

(** C3, as the code has it.  In [getLibrary], whenever a page request
    that the run made fails, the run ends with the auth token cleared.
    [downloadBook] (and with it [getDownloadMetadata] and the transfer)
    leaves the whole session, the auth token included, as it found it,
    whether its calls fail or not. *)
Theorem token_cleared_on_listing_failure_only (c : Client) :
  (forall (fuel : nat) (p : Z) (e : exn),
     let run := getLibrary env fuel c in
     In (EvFetchLibrary (authToken (config c)) p) (events run) ->
     fetchLibrary env (authToken (config c)) p = inl e ->
     authToken (config (final run)) = None) /\
  (forall (b : Audiobook) (ov kz : bool),
     config (final (downloadBook env b ov kz c)) = config c).
Proof.
  split; [|intros; apply downloadBook_config].
  intros fuel p e run. unfold run, getLibrary. run.
  destruct (Boolean (authToken (config c))) eqn:Htok; simpl; [|done].
  pose proof (getLibrary_loop_failed_request env fuel ∅ 1 c p e) as Hloop.
  unfold final, events in Hloop.
  destruct (getLibrary_loop env fuel ∅ 1 c) as [[r c'] evs]. exact Hloop.
Qed.

End SessionToken.

(** A failing page request clears the token; a download leaves the
    session alone. *)
Lemma token_cleared_on_listing_failure_only_witness :
  authToken (config (final (getLibrary Sample.secondPageFails 5 Sample.loggedIn))) = None /\
  config (final (downloadBook Sample.secondPageFails Sample.bookA false false
                   Sample.loggedIn)) = config Sample.loggedIn.
Proof.
  destruct (token_cleared_on_listing_failure_only Sample.secondPageFails Sample.loggedIn)
    as [Hlist Hdown].
  split.
  - apply (Hlist 5%nat 2 Sample.failure).
    + vm_compute. right. left. reflexivity.
    + reflexivity.
  - apply Hdown.
Defined.

(** C3 as stated fails on the download side: a transfer call that fails,
    and a metadata resolution that fails, both leave the auth token in
    place. *)
Lemma failed_download_calls_keep_token :
  (let run := downloadBook Sample.transferFails Sample.bookA false false
                Sample.loggedIn in
   outcome run = Throw DownloadFailed /\
   events run =
     [EvFetchDownloadMetadata (Some "tok") (isbn Sample.bookA);
      EvLogVerbose "Downloading book: 9780000000001";
      EvDownloadFiles "A. Author, B. Writer/Saga/2 - The Book" ["u1"; "u2"]
        (Some "tok") false (Some "/books");
      EvLogErrorObject Sample.failure] /\
   authToken (config (final run)) = Some "tok") /\
  (let run := downloadBook Sample.metadataFails Sample.bookA false false
                Sample.loggedIn in
   outcome run = Throw Sample.metadataFailure /\
   events run = [EvFetchDownloadMetadata (Some "tok") (isbn Sample.bookA)] /\
   authToken (config (final run)) = Some "tok").
Proof. vm_compute. repeat split. Qed.

Section DownloadTheorems.

Variable env : Env.

Lemma authorsText_notAuthors (a : AuthorsField) :
  authorsText a =
  if notAuthors a then inl (Error "No authors found")
  else inr (match a with
            | AuthorsString s => s
            | AuthorsList l => join ", " l
            | AuthorsAbsent => ""
            end).
Proof. destruct a as [|s|l]; simpl; [done| |done]. by destruct (String.eqb s ""). Qed.

(** C7, as the code has it.  When the gateway's metadata resolution fails
    with [e],
    [downloadBook] throws that very [e], message and cause chain as the
    gateway made them: nothing is caught, so nothing is logged, nothing
    else is called, and the client is as before; the error becomes the
    generic download failure only if the gateway itself threw that.
    [getDownloadMetadata] alone behaves the same way. *)
Theorem metadata_failure_propagates (b : Audiobook) (ov kz : bool) (c : Client)
    (e : exn) :
  Boolean (authToken (config c)) = true ->
  fetchDownloadMetadata env (authToken (config c)) (isbn b) = inl e ->
  let run := downloadBook env b ov kz c in
  outcome run = Throw e /\
  final run = c /\
  events run = [EvFetchDownloadMetadata (authToken (config c)) (isbn b)] /\
  (outcome run = Throw DownloadFailed -> e = DownloadFailed) /\
  outcome (getDownloadMetadata env (isbn b) c) = Throw e.
Proof.
  intros Htok Hmeta run. unfold run.
  rewrite (downloadBook_metadata_fails env b ov kz c e Htok Hmeta).
  repeat split; [by intros [= ->]|].
  unfold getDownloadMetadata. run. rewrite Htok. run. by rewrite Hmeta.
Qed.

(** C5.  For an item that already has a ledger record, [downloadBook]
    with [overwrite = false] and a prompt answered "no" emits no transfer
    event and no ledger write and leaves the client, hence the item's
    ledger record, exactly as it was; and once the session has a token
    and the metadata resolves (so that the prompt is reached) it returns
    the empty string. *)
Theorem overwrite_declined_skips (b : Audiobook) (kz : bool) (c : Client) :
  hasBook (isbn b) (state c) = true ->
  requestOverwrite env b = inr false ->
  let run := downloadBook env b false kz c in
  (forall ev, In ev (events run) -> isTransfer ev = false) /\
  (forall r, ~ In (EvAddBook r) (events run)) /\
  final run = c /\
  state (final run) !! isbn b = state c !! isbn b /\
  (Boolean (authToken (config c)) = true ->
   forall m, fetchDownloadMetadata env (authToken (config c)) (isbn b) = inr m ->
   outcome run = Return "" /\
   events run =
     [EvFetchDownloadMetadata (authToken (config c)) (isbn b);
      EvLogVerbose ("Downloading book: " +:+ meta_isbn m);
      EvRequestOverwrite b;
      EvLogVerbose "Skipping download"]).
Proof.
  intros Hhas Hno run. unfold run.
  download_paths env b false kz c;
    try (rewrite Hhas in *; discriminate); try congruence;
    repeat split; settle.
Qed.

(** C4, as the code has it.  For an item whose [authors] field is falsy
    (absent, or the empty string), [downloadBook] never calls the
    transfer and never writes the ledger, whatever else happens.  When
    the session has a token, the metadata resolves and the download is
    goes ahead (the question is not asked, or is answered yes), it throws the generic download failure,
    having logged the missing-authors error; the metadata resolution is
    the one network call it made, before the check. *)
Theorem missing_authors_never_transfers (b : Audiobook) (ov kz : bool) (c : Client) :
  notAuthors (authors b) = true ->
  let run := downloadBook env b ov kz c in
  (forall ev, In ev (events run) -> isTransfer ev = false) /\
  (forall r, ~ In (EvAddBook r) (events run)) /\
  state (final run) = state c /\
  (Boolean (authToken (config c)) = true ->
   forall m, fetchDownloadMetadata env (authToken (config c)) (isbn b) = inr m ->
   goesAhead env b ov c = true ->
   outcome run = Throw DownloadFailed /\
   last (events run) = Some (EvLogErrorObject (Error "No authors found")) /\
   filter (fun ev => isNetwork ev = true) (events run) =
     [EvFetchDownloadMetadata (authToken (config c)) (isbn b)]).
Proof.
  intros Hnone run. unfold run.
  download_paths env b ov kz c;
    rewrite ?authorsText_notAuthors, ?Hnone in *; simplify_eq;
    repeat split; settle.
Qed.

(** C8.  Past the metadata resolution, when the download goes ahead (the
    question is not asked, or is answered yes), every failure inside the [try] statement (the
    missing-authors check of the path derivation, the transfer, the
    metadata save, the ledger write) ends the same way: the cause is
    logged, the one generic error is thrown, which carries no cause, and
    the ledger is as it was.  The ledger write is the last step: it is
    only reached after the transfer and the metadata save have both
    answered, and it alone changes the ledger.  Whatever the path, a run
    that throws leaves the ledger unchanged. *)
Theorem download_failures_are_generic (b : Audiobook) (ov kz : bool) (c : Client) :
  let run := downloadBook env b ov kz c in
  let tok := authToken (config c) in
  let dir := downloadDir (config c) in
  let failed cause :=
    outcome run = Throw DownloadFailed /\
    cause_of DownloadFailed = None /\
    state (final run) = state c /\
    last (events run) = Some (EvLogErrorObject cause) in
  (forall e, outcome run = Throw e -> state (final run) = state c) /\
  (forall r, In (EvAddBook r) (events run) ->
     exists pre post f,
       events run =
         (pre ++ [EvDownloadFiles f (url <$> parts (meta r)) tok kz dir;
                  EvSaveMetadata b (meta r) (path r);
                  EvAddBook r] ++ post)%list /\
       downloadFiles env f (url <$> parts (meta r)) tok kz dir =
         inr (path r, zippedPaths r) /\
       saveMetadata env b (meta r) (path r) = inr tt) /\
  (Boolean tok = true ->
   forall m, fetchDownloadMetadata env tok (isbn b) = inr m ->
   goesAhead env b ov c = true ->
   let urls := url <$> parts m in
   (forall cause, authorsText (authors b) = inl cause -> failed cause) /\
   (forall a, authorsText (authors b) = inr a ->
      let filename := filenameOf a b in
      (forall cause, downloadFiles env filename urls tok kz dir = inl cause ->
         failed cause) /\
      (forall p z, downloadFiles env filename urls tok kz dir = inr (p, z) ->
         let r := {| book := b; path := p; meta := m; zippedPaths := z |} in
         (forall cause, saveMetadata env b m p = inl cause -> failed cause) /\
         (saveMetadata env b m p = inr tt ->
            (forall cause, addBook_error env r = Some cause -> failed cause) /\
            (addBook_error env r = None ->
               outcome run = Return filename /\
               state (final run) = addBook r (state c)))))).
Proof.
  intros run tok dir failed. unfold failed, run, tok, dir.
  download_paths env b ov kz c; repeat split; settle;
    try (by eexists [_; _], [], _);
    try (by eexists [_; _], [_], _);
    try (by eexists [_; _; _], [], _);
    try (by eexists [_; _; _], [_], _).
Qed.

End DownloadTheorems.

(** ** The derived relative path *)

Lemma append_nonempty (s t : string) : s <> "" -> s +:+ t <> "".
Proof. by destruct s. Qed.

Lemma filterBoolean_nonempty (arr : list (option string)) :
  Forall (fun s => s <> "") (filterBoolean arr).
Proof.
  induction arr as [|[s|] arr IH]; simpl; [done| |done].
  destruct (String.eqb_spec s ""); simpl; [done|]. by constructor.
Qed.

Lemma join_empty (sep : string) (arr : list string) :
  Forall (fun s => s <> "") arr -> join sep arr = "" <-> arr = [].
Proof.
  intros Harr. split; [|by intros ->].
  destruct Harr as [|s arr Hs _]; [done|]. simpl.
  destruct arr; [done|]. intros Hjoin. by apply append_nonempty in Hjoin.
Qed.

Lemma filterBoolean_nil_cons (v : option string) (arr : list (option string)) :
  filterBoolean (v :: arr) = [] <-> Boolean v = false /\ filterBoolean arr = [].
Proof.
  destruct v as [s|]; simpl; [|tauto].
  destruct (String.eqb s ""); simpl; intuition discriminate.
Qed.

Lemma Boolean_false_Some (s : string) : Boolean (Some s) = false <-> s = "".
Proof.
  unfold Boolean. destruct (String.eqb_spec s ""); simpl; intuition discriminate.
Qed.

Lemma titleText_empty (b : Audiobook) :
  titleText b = "" <-> Boolean (series_num b) = false /\ title b = "".
Proof.
  unfold titleText. rewrite join_empty by apply filterBoolean_nonempty.
  rewrite !filterBoolean_nil_cons, Boolean_false_Some. tauto.
Qed.

Lemma filenameOf_empty (a : string) (b : Audiobook) :
  filenameOf a b = "" <->
  a = "" /\ Boolean (series b) = false /\ Boolean (series_num b) = false /\ title b = "".
Proof.
  unfold filenameOf, seriesText. rewrite join_empty by apply filterBoolean_nonempty.
  rewrite !filterBoolean_nil_cons, !Boolean_false_Some, titleText_empty.
  tauto.
Qed.

(** C6.  Multiple authors are joined with ", ".  The relative path is the
    "/"-join of the components that are present, among authors, series
    and title text, and none of the joined components is empty.  With
    authors and a title, the path is [authors/series/position - title],
    without the series component when there is no series and without the
    position when there is none.  That path is what the transfer is
    called with.  The two examples of the spec come out as stated, from
    the derivation and from a whole run of [downloadBook]. *)
Theorem relative_path_derivation :
  (forall l, authorsText (AuthorsList l) = inr (join ", " l)) /\
  (forall s, s <> "" -> authorsText (AuthorsString s) = inr s) /\
  (forall a b,
     let comps := filterBoolean [Some a; seriesText b; Some (titleText b)] in
     filenameOf a b = join "/" comps /\ Forall (fun s => s <> "") comps) /\
  (forall a b, a <> "" -> title b <> "" ->
     let t := if Boolean (series_num b)
              then default "" (series_num b) +:+ " - " +:+ title b
              else title b in
     titleText b = t /\
     filenameOf a b =
       if Boolean (series b)
       then a +:+ "/" +:+ default "" (series b) +:+ "/" +:+ t
       else a +:+ "/" +:+ t) /\
  (forall env b ov kz c f urls tok k dir,
     In (EvDownloadFiles f urls tok k dir) (events (downloadBook env b ov kz c)) ->
     exists a, authorsText (authors b) = inr a /\ f = filenameOf a b) /\
  outcome (downloadBook Sample.twoPages Sample.bookA false false Sample.loggedIn)
    = Return "A. Author, B. Writer/Saga/2 - The Book" /\
  outcome (downloadBook Sample.twoPages Sample.bookB false false Sample.loggedIn)
    = Return "A. Author/The Book".
Proof.
  split; [done|]. split.
  { intros s Hs. simpl. apply Boolean_Some in Hs. simpl in Hs. by rewrite Hs. }
  split.
  { intros a b comps. split; [done|]. apply filterBoolean_nonempty. }
  split.
  { intros a b Ha Hb t.
    assert (Ht : titleText b = t).
    { unfold titleText, t. simpl.
      apply Boolean_Some in Hb. simpl in Hb. rewrite Hb.
      destruct (series_num b) as [n|]; simpl; [|done].
      by destruct (String.eqb n ""). }
    split; [done|].
    assert (Hne : t <> "").
    { rewrite <- Ht. rewrite titleText_empty. tauto. }
    unfold filenameOf, seriesText. rewrite Ht. simpl.
    apply Boolean_Some in Ha, Hne. simpl in Ha, Hne. rewrite Ha, Hne.
    destruct (series b) as [s|]; simpl; [|done].
    by destruct (String.eqb s ""). }
  split.
  { intros env b ov kz c f urls tok k dir.
    download_paths env b ov kz c; settle; eauto. }
  split; reflexivity.
Qed.

Lemma relative_path_derivation_witness :
  titleText Sample.bookA = "2 - The Book" /\
  filenameOf "A. Author, B. Writer" Sample.bookA =
    "A. Author, B. Writer/Saga/2 - The Book" /\
  titleText Sample.bookB = "The Book" /\
  filenameOf "A. Author" Sample.bookB = "A. Author/The Book" /\
  authorsText (AuthorsString "C. Scribe") = inr "C. Scribe".
Proof.
  destruct relative_path_derivation as (_ & Hstring & _ & Htable & _).
  destruct (Htable "A. Author, B. Writer" Sample.bookA) as [HtA HfA];
    [discriminate | discriminate |].
  destruct (Htable "A. Author" Sample.bookB) as [HtB HfB];
    [discriminate | discriminate |].
  split; [exact HtA|]. split; [exact HfA|]. split; [exact HtB|].
  split; [exact HfB|]. apply Hstring. discriminate.
Defined.

Lemma authorsText_error (a : AuthorsField) (e : exn) :
  authorsText a = inl e <->
  (a = AuthorsAbsent \/ a = AuthorsString "") /\ e = Error "No authors found".
Proof.
  destruct a as [|s|l]; simpl.
  - split; [intros [= <-]; auto | intros [_ ->]; done].
  - destruct (String.eqb_spec s "") as [->|Hs]; simpl.
    + split; [intros [= <-]; auto | intros [_ ->]; done].
    + split; [done | intros [[|[= ->]] _]; done].
  - split; [done | intros [[|] _]; done].
Qed.

Section ReturnValue.

Variable env : Env.

(** C9, as the code has it.  On the skip path [downloadBook] returns the
    empty string.  A run that returns at all either took the skip path,
    with the client untouched, or completed the download, and then the
    value is the derived relative path, whatever final path the transfer
    reported for the record; that value is empty exactly when every
    component of the path is empty, so a non-empty title (or author,
    series, position) tells a completed download from a skipped one. *)
Theorem downloadBook_return_value (b : Audiobook) (ov kz : bool) (c : Client) :
  let run := downloadBook env b ov kz c in
  let tok := authToken (config c) in
  (Boolean tok = true ->
   forall m, fetchDownloadMetadata env tok (isbn b) = inr m ->
   isSkipped env b ov c = true ->
   outcome run = Return "") /\
  (forall s, outcome run = Return s ->
     (isSkipped env b ov c = true /\
      s = "" /\ final run = c /\
      forall ev, In ev (events run) -> isTransfer ev = false) \/
     (exists a r,
        authorsText (authors b) = inr a /\
        s = filenameOf a b /\
        downloadFiles env (filenameOf a b) (url <$> parts (meta r)) tok kz
          (downloadDir (config c)) = inr (path r, zippedPaths r) /\
        In (EvAddBook r) (events run) /\
        state (final run) = addBook r (state c) /\
        (s = "" <->
         a = "" /\ Boolean (series b) = false /\
         Boolean (series_num b) = false /\ title b = ""))).
Proof.
  intros run tok. unfold run, tok.
  download_paths env b ov kz c; (split; [settle|]); intros s Hs; simplify_eq.
  - right. eexists _, {| book := b |}. simpl.
    split_and!; [done | done | done | auto 10 | done | apply filenameOf_empty].
  - left. split_and!; settle.
  - right. eexists _, {| book := b |}. simpl.
    split_and!; [done | done | done | auto 10 | done | apply filenameOf_empty].
Qed.

(** C10, as the code has it.  The missing-authors error arises exactly
    when the [authors] field is absent or is the empty string; in a run,
    an error logged before any transfer call is that error, from an item
    of that kind.  An item whose authors are the empty list passes the
    check: once the metadata resolves and the download goes ahead,
    the transfer is called, with the path made of the series and title
    components only, the empty author string being dropped. *)
Theorem missing_authors_cases (b : Audiobook) (ov kz : bool) (c : Client) :
  let run := downloadBook env b ov kz c in
  let tok := authToken (config c) in
  (forall e, authorsText (authors b) = inl e <->
     (authors b = AuthorsAbsent \/ authors b = AuthorsString "") /\
     e = Error "No authors found") /\
  (forall e, In (EvLogErrorObject e) (events run) ->
     (forall ev, In ev (events run) -> isTransfer ev = false) ->
     e = Error "No authors found" /\
     (authors b = AuthorsAbsent \/ authors b = AuthorsString "")) /\
  (authors b = AuthorsList [] ->
   Boolean tok = true ->
   forall m, fetchDownloadMetadata env tok (isbn b) = inr m ->
   goesAhead env b ov c = true ->
   let filename := join "/" (filterBoolean [seriesText b; Some (titleText b)]) in
   In (EvDownloadFiles filename (url <$> parts m) tok kz (downloadDir (config c)))
      (events run)).
Proof.
  intros run tok.
  split; [intros e; apply authorsText_error|]. unfold run, tok. split.
  - intros e.
    download_paths env b ov kz c; settle;
      try (apply authorsText_error in Hauthors; by destruct Hauthors);
      match goal with
      | H : forall ev, _ -> isTransfer ev = false |- _ =>
          try (by specialize (H (EvDownloadFiles _ _ _ _ _) ltac:(auto)));
          try (by specialize (H (EvDownloadFiles _ _ _ _ _) ltac:(auto 6)))
      end.
  - intros Hlist.
    download_paths env b ov kz c; rewrite ?Hlist in *; settle; auto 6.
Qed.

End ReturnValue.

(** ** The theorems at sample inputs *)

Lemma metadata_failure_propagates_witness :
  let run := downloadBook Sample.metadataFails Sample.bookA false false
               Sample.loggedIn in
  outcome run = Throw Sample.metadataFailure /\
  final run = Sample.loggedIn /\
  events run = [EvFetchDownloadMetadata (Some "tok") (isbn Sample.bookA)].
Proof.
  destruct (metadata_failure_propagates Sample.metadataFails Sample.bookA false
              false Sample.loggedIn Sample.metadataFailure eq_refl eq_refl)
    as (Hout & Hfin & Hev & _).
  intros run. split; [exact Hout|].
  split; [exact Hfin | exact Hev].
Defined.

Lemma overwrite_declined_skips_witness :
  let run := downloadBook Sample.twoPages Sample.bookA false true Sample.hasA in
  outcome run = Return "" /\
  (forall ev, In ev (events run) -> isTransfer ev = false) /\
  state (final run) !! isbn Sample.bookA = Some Sample.recordA.
Proof.
  destruct (overwrite_declined_skips Sample.twoPages Sample.bookA true Sample.hasA)
    as (Hnone & _ & _ & Hrec & Hskip).
  - vm_compute. reflexivity.
  - reflexivity.
  - destruct (Hskip eq_refl Sample.metadataA eq_refl) as [Hout _].
    intros run. split; [exact Hout|]. split; [exact Hnone|].
    unfold run. rewrite Hrec. vm_compute. reflexivity.
Defined.

Lemma missing_authors_never_transfers_witness :
  let run := downloadBook Sample.twoPages Sample.noAuthors false false
               Sample.loggedIn in
  outcome run = Throw DownloadFailed /\
  (forall ev, In ev (events run) -> isTransfer ev = false) /\
  state (final run) = state Sample.loggedIn /\
  last (events run) = Some (EvLogErrorObject (Error "No authors found")).
Proof.
  destruct (missing_authors_never_transfers Sample.twoPages Sample.noAuthors false
              false Sample.loggedIn eq_refl)
    as (Hnone & _ & Hstate & Hfail).
  destruct (Hfail eq_refl Sample.metadataA eq_refl) as (Hout & Hlog & _).
  - vm_compute. reflexivity.
  - intros run. split; [exact Hout|]. split; [exact Hnone|].
    split; [exact Hstate | exact Hlog].
Defined.

Lemma download_failures_are_generic_witness :
  let run := downloadBook Sample.transferFails Sample.bookA false false
               Sample.loggedIn in
  outcome run = Throw DownloadFailed /\
  state (final run) = state Sample.loggedIn /\
  last (events run) = Some (EvLogErrorObject Sample.failure).
Proof.
  destruct (download_failures_are_generic Sample.transferFails Sample.bookA false
              false Sample.loggedIn) as (_ & _ & Hbody).
  destruct (Hbody eq_refl Sample.metadataA eq_refl) as [_ Hauthors].
  - vm_compute. reflexivity.
  - destruct (Hauthors "A. Author, B. Writer" eq_refl) as [Hfiles _].
    destruct (Hfiles Sample.failure eq_refl) as (Hout & _ & Hstate & Hlog).
    intros run. split; [exact Hout|]. split; [exact Hstate | exact Hlog].
Defined.

Lemma downloadBook_return_value_witness :
  outcome (downloadBook Sample.twoPages Sample.bookA false false Sample.hasA)
    = Return "" /\
  exists r,
    path r = "/books/A. Author/The Book" /\
    state (final (downloadBook Sample.twoPages Sample.bookB false false
                    Sample.loggedIn)) = addBook r (state Sample.loggedIn).
Proof.
  split.
  - destruct (downloadBook_return_value Sample.twoPages Sample.bookA false false
                Sample.hasA) as [Hskip _].
    apply (Hskip eq_refl Sample.metadataA eq_refl). vm_compute. reflexivity.
  - destruct (downloadBook_return_value Sample.twoPages Sample.bookB false false
                Sample.loggedIn) as [_ Hret].
    destruct (Hret "A. Author/The Book" eq_refl)
      as [(_ & Hempty & _)|(a & r & Ha & _ & Hfiles & _ & Hstate & _)].
    + discriminate Hempty.
    + exists r. split; [|exact Hstate].
      injection Ha as <-. simpl in Hfiles. injection Hfiles as Hpath _.
      rewrite <- Hpath. reflexivity.
Defined.

Lemma missing_authors_cases_witness :
  In (EvDownloadFiles "Anonymous" ["u1"; "u2"] (Some "tok") false (Some "/books"))
     (events (downloadBook Sample.twoPages Sample.emptyAuthorList false false
                Sample.loggedIn)) /\
  (forall e,
     In (EvLogErrorObject e)
        (events (downloadBook Sample.twoPages Sample.noAuthors false false
                   Sample.loggedIn)) ->
     e = Error "No authors found").
Proof.
  split.
  - destruct (missing_authors_cases Sample.twoPages Sample.emptyAuthorList false
                false Sample.loggedIn) as (_ & _ & Hlist).
    apply (Hlist eq_refl eq_refl
             {| meta_isbn := isbn Sample.emptyAuthorList;
                parts := [ {| url := "u1" |}; {| url := "u2" |} ] |} eq_refl).
    vm_compute. reflexivity.
  - destruct (missing_authors_cases Sample.twoPages Sample.noAuthors false
                false Sample.loggedIn) as (_ & Hlog & _).
    intros e He. apply (Hlog e He).
    vm_compute. intros ev [<-|[<-|[<-|[]]]]; reflexivity.
Defined.

(** ** Where the code departs from the claims *)

(** C7 as stated fails.  When the gateway call fails with the bare error
    [failure], that very error is what [downloadBook] throws: it has the
    gateway's message and no cause, so it is not an error of the client's
    own that wraps the failure as its cause. *)
Lemma metadata_failure_is_not_wrapped :
  let run := downloadBook Sample.metadataFailsBare Sample.bookA false false
               Sample.loggedIn in
  fetchDownloadMetadata Sample.metadataFailsBare (Some "tok") (isbn Sample.bookA)
    = inl Sample.failure /\
  outcome run = Throw Sample.failure /\
  (forall e, outcome run = Throw e ->
     message e = "503" /\ cause_of e = None /\ cause_of e <> Some Sample.failure).
Proof.
  vm_compute. split; [reflexivity|]. split; [reflexivity|].
  intros e [= <-]. split; [reflexivity|]. split; [reflexivity | discriminate].
Qed.

(** C4 as stated fails.  An item without authors and a ledger record, with
    the prompt answered "no", makes [downloadBook] return normally; and
    without a ledger record the failure comes after the metadata
    resolution, a network call, has been made. *)
Lemma missing_authors_checked_after_metadata :
  authors Sample.noAuthors = AuthorsAbsent /\
  (let run := downloadBook Sample.twoPages Sample.noAuthors false false
                Sample.hasA in
   outcome run = Return "" /\
   existsb isNetwork (events run) = true) /\
  (let run := downloadBook Sample.twoPages Sample.noAuthors false false
                Sample.loggedIn in
   outcome run = Throw DownloadFailed /\
   events run =
     [EvFetchDownloadMetadata (Some "tok") (isbn Sample.noAuthors);
      EvLogVerbose "Downloading book: 9780000000001";
      EvLogErrorObject (Error "No authors found")] /\
   existsb isNetwork (events run) = true).
Proof. vm_compute. repeat split. Qed.

(** C9 as stated fails.  For an item whose every path component is empty
    the download completes, the ledger gets its record, and the value
    returned is the empty string, the same as on the skip path. *)
Lemma completed_download_returns_empty_string :
  let completed := downloadBook Sample.twoPages Sample.blank false false
                     Sample.loggedIn in
  let skipped := downloadBook Sample.twoPages Sample.bookA false false
                   Sample.hasA in
  let r := {| book := Sample.blank; path := "/books/";
              meta := {| meta_isbn := isbn Sample.blank;
                         parts := [ {| url := "u1" |}; {| url := "u2" |} ] |};
              zippedPaths := None |} in
  outcome completed = Return "" /\
  events completed =
    [EvFetchDownloadMetadata (Some "tok") (isbn Sample.blank);
     EvLogVerbose "Downloading book: 9780000000007";
     EvDownloadFiles "" ["u1"; "u2"] (Some "tok") false (Some "/books");
     EvSaveMetadata Sample.blank (meta r) "/books/";
     EvAddBook r] /\
  state (final completed) = addBook r ∅ /\
  outcome skipped = Return "" /\
  final skipped = Sample.hasA.
Proof. vm_compute. repeat split. Qed.

(** C10 as stated fails.  An item whose [authors] field is present, as the
    empty string, gets the missing-authors error. *)
Lemma empty_author_string_is_missing :
  let run := downloadBook Sample.twoPages Sample.emptyAuthorString false false
               Sample.loggedIn in
  authors Sample.emptyAuthorString = AuthorsString "" /\
  authors Sample.emptyAuthorString <> AuthorsAbsent /\
  outcome run = Throw DownloadFailed /\
  events run =
    [EvFetchDownloadMetadata (Some "tok") (isbn Sample.emptyAuthorString);
     EvLogVerbose "Downloading book: 9780000000005";
     EvLogErrorObject (Error "No authors found")].
Proof. vm_compute. repeat split. discriminate. Qed.

(** ** More on [getLibrary]: the shape of every run *)

Section LibraryRuns.

Variable env : Env.

Lemma pageRequests_cons (tok : option string) (page : Z) (n : nat) :
  pageRequests tok page (S n) =
  EvFetchLibrary tok page :: pageRequests tok (page + 1) n.
Proof.
  unfold pageRequests. cbn [seq fmap list_fmap]. rewrite Z.add_0_r. f_equal.
  rewrite <- seq_shift, <- list_fmap_compose.
  apply list_fmap_ext. intros _ j _. simpl. f_equal. lia.
Qed.

(** One turn of the loop. *)
Lemma getLibrary_loop_step (fuel : nat) (acc : AudiobookMap) (page : Z)
    (c : Client) :
  getLibrary_loop env (S fuel) acc page c =
  match fetchLibrary env (authToken (config c)) page with
  | inl e =>
      (Return acc,
       {| config := change_authToken None (config c); state := state c |},
       [EvFetchLibrary (authToken (config c)) page;
        EvLogErrorMessage ("Failed to fetch library: " +:+ message e)])
  | inr data =>
      if total_pages data <=? page
      then (Return (mergeBooks acc (audiobooks data)), c,
            [EvFetchLibrary (authToken (config c)) page])
      else
        let next := getLibrary_loop env fuel (mergeBooks acc (audiobooks data))
                      (page + 1) c in
        (outcome next, final next,
         EvFetchLibrary (authToken (config c)) page :: events next)
  end.
Proof.
  cbn [getLibrary_loop]. unfold mbind at 1, M_bind at 1.
  destruct (fetchLibrary env (authToken (config c)) page) as [e|data] eqn:Hfetch.
  - by rewrite (getLibrary_iteration_fail env _ _ _ _ Hfetch).
  - rewrite (getLibrary_iteration_ok env _ _ _ _ Hfetch).
    destruct (total_pages data <=? page); [done|].
    by destruct (getLibrary_loop env fuel _ _ c) as [[r c'] evs].
Qed.

(** Whatever the gateway answers, a run of the loop is [k] requests for
    consecutive pages that all succeeded, followed either by nothing, the
    client being untouched, or by one more request, which failed, the log
    line and the logout. *)
Lemma getLibrary_loop_shape (fuel : nat) :
  forall (acc : AudiobookMap) (page : Z) (c : Client),
  let run := getLibrary_loop env fuel acc page c in
  let tok := authToken (config c) in
  exists k : nat,
    (forall i : nat, (i < k)%nat ->
       exists data, fetchLibrary env tok (page + Z.of_nat i) = inr data) /\
    (((k <= fuel)%nat /\
      final run = c /\
      events run = pageRequests tok page k) \/
     (exists e,
        (k < fuel)%nat /\
        fetchLibrary env tok (page + Z.of_nat k) = inl e /\
        (exists m, outcome run = Return m) /\
        final run =
          {| config := change_authToken None (config c); state := state c |} /\
        events run =
          (pageRequests tok page (S k) ++
           [EvLogErrorMessage ("Failed to fetch library: " +:+ message e)])%list)).
Proof.
  induction fuel as [|fuel IH]; intros acc page c run tok.
  { exists 0%nat. split; [lia|]. left. by repeat split. }
  unfold run. rewrite getLibrary_loop_step.
  destruct (fetchLibrary env (authToken (config c)) page) as [e|data] eqn:Hfetch.
  - exists 0%nat. split; [lia|]. right. exists e.
    rewrite Z.add_0_r. split; [lia|]. split; [done|].
    split; [by eexists|]. split; [done|].
    unfold events, pageRequests. simpl. by rewrite Z.add_0_r.
  - destruct (total_pages data <=? page).
    + exists 1%nat. split.
      { intros i Hi. replace i with 0%nat by lia. rewrite Z.add_0_r. eauto. }
      left. split; [lia|]. split; [done|].
      unfold events, pageRequests. simpl. by rewrite Z.add_0_r.
    + destruct (IH (mergeBooks acc (audiobooks data)) (page + 1) c)
        as (k & Hok & Hshape).
      exists (S k). split.
      { intros [|i] Hi; [rewrite Z.add_0_r; eauto|].
        destruct (Hok i ltac:(lia)) as [d Hd]. exists d.
        by replace (page + Z.of_nat (S i)) with (page + 1 + Z.of_nat i) by lia. }
      cbv zeta. unfold final, events, outcome in *.
      destruct (getLibrary_loop env fuel _ _ c) as [[r c'] evs].
      cbn [fst snd] in *.
      destruct Hshape as [(Hk & -> & ->)|(e & Hk & Hfail & Hm & -> & ->)].
      * left. split; [lia|]. split; [done|]. by rewrite pageRequests_cons.
      * right. exists e. split; [lia|].
        replace (page + Z.of_nat (S k)) with (page + 1 + Z.of_nat k) by lia.
        split; [done|]. split; [done|]. split; [done|].
        by rewrite (pageRequests_cons _ page (S k)).
Qed.

(** The same for [getLibrary] itself. *)
Lemma getLibrary_shape (fuel : nat) (c : Client) :
  let run := getLibrary env fuel c in
  let tok := authToken (config c) in
  exists k : nat,
    (forall i : nat, (i < k)%nat ->
       exists data, fetchLibrary env tok (1 + Z.of_nat i) = inr data) /\
    (((k <= fuel)%nat /\
      final run = c /\
      events run = pageRequests tok 1 k) \/
     (exists e,
        (k < fuel)%nat /\
        fetchLibrary env tok (1 + Z.of_nat k) = inl e /\
        (exists m, outcome run = Return m) /\
        final run =
          {| config := change_authToken None (config c); state := state c |} /\
        events run =
          (pageRequests tok 1 (S k) ++
           [EvLogErrorMessage ("Failed to fetch library: " +:+ message e)])%list)).
Proof.
  intros run tok.
  destruct (Boolean (authToken (config c))) eqn:Htok.
  - unfold run. rewrite getLibrary_logged_in by done.
    apply getLibrary_loop_shape.
  - exists 0%nat. split; [lia|]. left. split; [lia|].
    unfold run, getLibrary. run. by rewrite Htok.
Qed.

(** X1.  Every run of [getLibrary], whatever the gateway answers and
    whatever the fuel, is a run of requests for the pages [1, 2, ..., k],
    in this order and each made once, all of which succeeded, followed
    either by nothing, the client being untouched, or by the request for
    page [k + 1], which failed, and the log line; only in that case is the
    client changed, and then only its auth token. *)
Theorem getLibrary_run_shape (fuel : nat) (c : Client) :
  let run := getLibrary env fuel c in
  let tok := authToken (config c) in
  exists k : nat,
    (forall i : nat, (i < k)%nat ->
       exists data, fetchLibrary env tok (1 + Z.of_nat i) = inr data) /\
    (((k <= fuel)%nat /\
      final run = c /\
      events run = pageRequests tok 1 k) \/
     (exists e,
        (k < fuel)%nat /\
        fetchLibrary env tok (1 + Z.of_nat k) = inl e /\
        (exists m, outcome run = Return m) /\
        final run =
          {| config := change_authToken None (config c); state := state c |} /\
        events run =
          (pageRequests tok 1 (S k) ++
           [EvLogErrorMessage ("Failed to fetch library: " +:+ message e)])%list)).
Proof. apply getLibrary_shape. Qed.

Lemma mergeBooks_lookup_Some (bs : list Audiobook) (acc : AudiobookMap)
    (k : string) (b : Audiobook) :
  mergeBooks acc bs !! k = Some b ->
  acc !! k = Some b \/ (isbn b = k /\ In b bs).
Proof.
  rewrite mergeBooks_lookup.
  destruct (last (filter (fun b => isbn b = k) bs)) as [b'|] eqn:Hlast; [|auto].
  intros [= ->]. right.
  apply last_Some_elem_of, list_elem_of_filter in Hlast as [Hk Hin].
  split; [done|]. by apply list_elem_of_In.
Qed.

Lemma mergeBooks_is_Some (bs : list Audiobook) (acc : AudiobookMap) (k : string) :
  is_Some (mergeBooks acc bs !! k) <->
  is_Some (acc !! k) \/ exists b, In b bs /\ isbn b = k.
Proof.
  revert acc. induction bs as [|b bs IH]; intros acc; simpl.
  - split; [auto | intros [|(b & [] & _)]; done].
  - unfold mergeBooks in *. simpl. rewrite IH.
    destruct (decide (isbn b = k)) as [<-|Hne].
    + rewrite lookup_insert_eq. split; [|eauto].
      intros _. right. exists b. auto.
    + rewrite lookup_insert_ne by done. split.
      * intros [|(b' & Hin & Hk)]; [auto|]. right. exists b'. auto.
      * intros [|(b' & [->|Hin] & Hk)]; [auto|done|]. right. exists b'. auto.
Qed.

Lemma getLibrary_loop_snapshot (fuel : nat) :
  forall (acc : AudiobookMap) (page : Z) (c : Client) (m : AudiobookMap),
  let run := getLibrary_loop env fuel acc page c in
  let tok := authToken (config c) in
  let fetched (b : Audiobook) :=
    exists p data, In (EvFetchLibrary tok p) (events run) /\
                   fetchLibrary env tok p = inr data /\
                   In b (audiobooks data) in
  outcome run = Return m ->
  (forall k b, m !! k = Some b -> acc !! k = Some b \/ (isbn b = k /\ fetched b)) /\
  (forall k, is_Some (m !! k) <->
             is_Some (acc !! k) \/ exists b, fetched b /\ isbn b = k).
Proof.
  induction fuel as [|fuel IH]; intros acc page c m run tok fetched; [done|].
  unfold fetched, run, tok. clear fetched run tok.
  rewrite getLibrary_loop_step.
  destruct (fetchLibrary env (authToken (config c)) page) as [e|data] eqn:Hfetch.
  - unfold outcome, events. simpl. intros [= <-]. split; [auto|].
    intros k. split; [auto|].
    intros [|(b & (p & d & [[= <-]|[|[]]] & Hd & _) & _)]; [done|congruence|done].
  - destruct (total_pages data <=? page).
    + unfold outcome, events. simpl. intros [= <-]. split.
      * intros k b Hb. apply mergeBooks_lookup_Some in Hb as [|[Hk Hin]]; [auto|].
        right. split; [done|]. exists page, data. auto.
      * intros k. rewrite mergeBooks_is_Some. split.
        -- intros [|(b & Hin & Hk)]; [auto|]. right. exists b. split; [|done].
           exists page, data. auto.
        -- intros [|(b & (p & d & [[= <-]|[]] & Hd & Hin) & Hk)]; [auto|].
           right. exists b. split; [congruence|done].
    + specialize (IH (mergeBooks acc (audiobooks data)) (page + 1) c m).
      cbv zeta in *. unfold outcome, events, final in *.
      destruct (getLibrary_loop env fuel _ _ c) as [[r c'] evs]. simpl in *.
      intros ->. destruct (IH eq_refl) as [Hsound Hdom]. split.
      * intros k b Hb. destruct (Hsound k b Hb) as [Hacc|[Hk (p & d & Hin & Hd & Hb')]].
        -- apply mergeBooks_lookup_Some in Hacc as [|[Hk Hin]]; [auto|].
           right. split; [done|]. exists page, data. auto.
        -- right. split; [done|]. exists p, d. auto.
      * intros k. rewrite Hdom, mergeBooks_is_Some. split.
        -- intros [[|(b & Hin & Hk)]|(b & (p & d & Hin & Hd & Hb) & Hk)]; [auto| |].
           ++ right. exists b. split; [|done]. exists page, data. auto.
           ++ right. exists b. split; [|done]. exists p, d. auto.
        -- intros [|(b & (p & d & [[= <-]|Hin] & Hd & Hb) & Hk)]; [auto| |].
           ++ left. right. exists b. split; [congruence|done].
           ++ right. exists b. split; [|done]. exists p, d. auto.
Qed.

(** X2.  When [getLibrary] returns a snapshot, every entry is stored under
    its own isbn and comes from a page that this run requested and the
    gateway answered; and an isbn is a key of the snapshot exactly when
    some book of such a page carries it. *)
Theorem getLibrary_snapshot_sound_complete (fuel : nat) (c : Client)
    (m : AudiobookMap) :
  let run := getLibrary env fuel c in
  let tok := authToken (config c) in
  let fetched (b : Audiobook) :=
    exists p data, In (EvFetchLibrary tok p) (events run) /\
                   fetchLibrary env tok p = inr data /\
                   In b (audiobooks data) in
  outcome run = Return m ->
  (forall k b, m !! k = Some b -> isbn b = k /\ fetched b) /\
  (forall k, is_Some (m !! k) <-> exists b, fetched b /\ isbn b = k).
Proof.
  intros run tok fetched. unfold fetched, run, tok. clear fetched run tok.
  destruct (Boolean (authToken (config c))) eqn:Htok.
  - rewrite getLibrary_logged_in by done. intros Hm.
    destruct (getLibrary_loop_snapshot fuel ∅ 1 c m Hm) as [Hsound Hdom]. split.
    + intros k b Hb. destruct (Hsound k b Hb) as [Hempty|]; [|done].
      by rewrite lookup_empty in Hempty.
    + intros k. rewrite Hdom. split; [|auto].
      intros [[x Hempty]|]; [|done]. by rewrite lookup_empty in Hempty.
  - unfold getLibrary. run. by rewrite Htok.
Qed.

(** X3.  The loop of [getLibrary] has no bound of its own: against a
    gateway that answers every page and always reports more pages than
    the one asked for, a run never returns; with any fuel it spends it
    all, one request per unit. *)
Theorem getLibrary_endless_gateway (c : Client) :
  Boolean (authToken (config c)) = true ->
  (forall p, 1 <= p ->
     exists data, fetchLibrary env (authToken (config c)) p = inr data /\
                  p < total_pages data) ->
  forall fuel,
    let run := getLibrary env fuel c in
    outcome run = OutOfFuel /\
    final run = c /\
    events run = pageRequests (authToken (config c)) 1 fuel.
Proof.
  intros Htok Hmore fuel run. unfold run.
  rewrite getLibrary_logged_in by done.
  assert (Hloop : forall fuel acc page, 1 <= page ->
    getLibrary_loop env fuel acc page c =
    (OutOfFuel, c, pageRequests (authToken (config c)) page fuel)).
  { clear fuel run. induction fuel as [|fuel IH]; intros acc page Hpage; [done|].
    destruct (Hmore page Hpage) as (data & Hfetch & Hlt).
    rewrite getLibrary_loop_step, Hfetch.
    destruct (Z.leb_spec (total_pages data) page) as [|_]; [lia|].
    cbv zeta. rewrite IH by lia. by rewrite pageRequests_cons. }
  by rewrite Hloop.
Qed.

End LibraryRuns.

(** ** More on [downloadBook] *)

Section DownloadRuns.

Variable env : Env.

(** X4.  [downloadBook] asks the overwrite question at most once, only
    about the item it was given, and only when [overwrite] is false and
    the ledger already has a record for the item; with a token and
    resolved metadata it asks exactly in that case.  With
    [overwrite = true], or for an item without a record, the user is never
    asked. *)
Theorem overwrite_prompt_discipline (b : Audiobook) (ov kz : bool) (c : Client) :
  let run := downloadBook env b ov kz c in
  let tok := authToken (config c) in
  (forall b', In (EvRequestOverwrite b') (events run) ->
     b' = b /\ ov = false /\ hasBook (isbn b) (state c) = true) /\
  (count isPrompt (events run) <= 1)%nat /\
  (Boolean tok = true ->
   forall m, fetchDownloadMetadata env tok (isbn b) = inr m ->
   ov = false -> hasBook (isbn b) (state c) = true ->
   count isPrompt (events run) = 1%nat).
Proof.
  intros run tok. unfold run, tok, count.
  download_paths env b ov kz c; split_and!; settle;
    try (by apply andb_prop in Hgate as [Hov Hhas];
         apply negb_true_iff in Hov);
    try lia;
    try (destruct (hasBook (isbn b) (state c)); done).
Qed.

(** X5.  Overwriting after the user agreed: for an
    item with a ledger record, [overwrite = false] and the question
    answered yes, when every collaborator succeeds the run is the metadata
    resolution, the question, one transfer call, the metadata save and the
    ledger write, in this order; it returns the derived path; and the
    ledger then holds the new record under the item's isbn in place of
    the old one. *)
Theorem overwrite_accepted_replaces (b : Audiobook) (kz : bool) (c : Client)
    (m : DownloadMetadata) (a p : string) (z : option (list string)) :
  let tok := authToken (config c) in
  let dir := downloadDir (config c) in
  let r := {| book := b; path := p; meta := m; zippedPaths := z |} in
  Boolean tok = true ->
  fetchDownloadMetadata env tok (isbn b) = inr m ->
  hasBook (isbn b) (state c) = true ->
  requestOverwrite env b = inr true ->
  authorsText (authors b) = inr a ->
  downloadFiles env (filenameOf a b) (url <$> parts m) tok kz dir = inr (p, z) ->
  saveMetadata env b m p = inr tt ->
  addBook_error env r = None ->
  let run := downloadBook env b false kz c in
  outcome run = Return (filenameOf a b) /\
  events run =
    [EvFetchDownloadMetadata tok (isbn b);
     EvLogVerbose ("Downloading book: " +:+ meta_isbn m);
     EvRequestOverwrite b;
     EvDownloadFiles (filenameOf a b) (url <$> parts m) tok kz dir;
     EvSaveMetadata b m p;
     EvAddBook r] /\
  state (final run) !! isbn b = Some r /\
  config (final run) = config c.
Proof.
  intros tok dir r Htok Hmeta Hhas Hyes Ha Hfiles Hsave Hledger run.
  unfold run, tok, dir, r in *.
  pose proof (downloadBook_resolved env b false kz c m Htok Hmeta) as Hrun.
  cbv zeta in Hrun. rewrite Hrun, Hhas, Hyes, downloadBook_tryCatch_run.
  rewrite Ha. cbv zeta. rewrite Hfiles, Hsave, Hledger.
  unfold outcome, final, events, resolved, addBook. simpl.
  split_and!; try done. apply lookup_insert_eq.
Qed.

(** X6.  No run of [downloadBook], failed or not, touches the session or
    the ledger record of any other item. *)
Theorem downloadBook_other_records (b : Audiobook) (ov kz : bool) (c : Client) :
  let run := downloadBook env b ov kz c in
  config (final run) = config c /\
  forall k, k <> isbn b -> state (final run) !! k = state c !! k.
Proof.
  intros run. unfold run.
  download_paths env b ov kz c; (split; [done|]); intros k Hk; try done;
    unfold addBook; simpl; by rewrite lookup_insert_ne.
Qed.

(** X7.  Once [downloadBook] has returned for an item, the ledger has a
    record for it, and a further call with [overwrite = false] that the
    user answers with no (the gateway answering as before) returns the
    empty string and changes nothing: the transfer is not called again. *)
Theorem download_then_decline (b : Audiobook) (ov kz kz' : bool) (c : Client)
    (s : string) :
  requestOverwrite env b = inr false ->
  outcome (downloadBook env b ov kz c) = Return s ->
  let c1 := final (downloadBook env b ov kz c) in
  let again := downloadBook env b false kz' c1 in
  hasBook (isbn b) (state c1) = true /\
  outcome again = Return "" /\
  final again = c1 /\
  count isDownloadFiles (events again) = 0%nat /\
  count isLedgerWrite (events again) = 0%nat.
Proof.
  intros Hno Hret c1 again.
  assert (Hcfg : config c1 = config c) by apply downloadBook_config.
  assert (Hfacts : hasBook (isbn b) (state c1) = true /\
                   Boolean (authToken (config c)) = true /\
                   exists m, fetchDownloadMetadata env (authToken (config c))
                               (isbn b) = inr m).
  { unfold c1. revert Hret.
    download_paths env b ov kz c; intros Hret; simplify_eq.
    - split; [|eauto]. by apply andb_prop in Hgate as [_ Hhas].
    - split; [|eauto]. unfold hasBook, addBook. simpl.
      rewrite lookup_insert_eq. by apply bool_decide_eq_true. }
  destruct Hfacts as (Hhas & Htok & m & Hmeta).
  split; [done|]. unfold again.
  rewrite <- Hcfg in Htok, Hmeta.
  pose proof (downloadBook_resolved env b false kz' c1 m Htok Hmeta) as Hrun.
  cbv zeta in Hrun. rewrite Hrun, Hhas, Hno. done.
Qed.

(** X8.  [downloadBook] calls the transfer at most once, and then with the
    session's token and download directory as they are (the directory is
    not checked and may be absent), the caller's [keepZip] flag, and the
    urls of the parts of the metadata the gateway resolved, in their
    order; the metadata is saved next to the path that this transfer call
    returned; and the ledger is written at most once. *)
Theorem transfer_call_arguments (b : Audiobook) (ov kz : bool) (c : Client) :
  let run := downloadBook env b ov kz c in
  let tok := authToken (config c) in
  let dir := downloadDir (config c) in
  (forall f urls t k d, In (EvDownloadFiles f urls t k d) (events run) ->
     t = tok /\ k = kz /\ d = dir /\
     exists m, fetchDownloadMetadata env tok (isbn b) = inr m /\
               urls = url <$> parts m) /\
  (forall b' m p, In (EvSaveMetadata b' m p) (events run) ->
     b' = b /\
     fetchDownloadMetadata env tok (isbn b) = inr m /\
     exists f z, In (EvDownloadFiles f (url <$> parts m) tok kz dir) (events run) /\
                 downloadFiles env f (url <$> parts m) tok kz dir = inr (p, z)) /\
  (count isDownloadFiles (events run) <= 1)%nat /\
  (count isLedgerWrite (events run) <= 1)%nat.
Proof.
  intros run tok dir. unfold run, tok, dir, count.
  download_paths env b ov kz c; split_and!; settle; try lia;
    try (by split_and!; eauto);
    try (by split_and!; [done..|eexists _, _; split; [|done]; simpl; auto 10]).
Qed.

(** X9.  For metadata that carries its list of parts, a caller of
    [downloadBook] can meet four errors only: "Not logged in", thrown
    before anything is called, when the token is absent or empty; the
    gateway's own error, when the metadata resolution fails; the error
    of the overwrite prompt, when that prompt is reached and rejects; and
    the generic download failure, thrown after the cause has been logged.
    Whichever it is, the client is left as it was. *)
Theorem downloadBook_errors (b : Audiobook) (ov kz : bool) (c : Client) (e : exn) :
  let run := downloadBook env b ov kz c in
  let tok := authToken (config c) in
  outcome run = Throw e ->
  final run = c /\
  ((Boolean tok = false /\ e = Error "Not logged in" /\ events run = []) \/
   (Boolean tok = true /\ fetchDownloadMetadata env tok (isbn b) = inl e /\
    events run = [EvFetchDownloadMetadata tok (isbn b)]) \/
   (Boolean tok = true /\
    (exists m, fetchDownloadMetadata env tok (isbn b) = inr m) /\
    ov = false /\ hasBook (isbn b) (state c) = true /\
    requestOverwrite env b = inl e /\
    last (events run) = Some (EvRequestOverwrite b)) \/
   (Boolean tok = true /\ e = DownloadFailed /\
    (exists m, fetchDownloadMetadata env tok (isbn b) = inr m) /\
    exists cause, last (events run) = Some (EvLogErrorObject cause))).
Proof.
  intros run tok. unfold run, tok.
  download_paths env b ov kz c; intros He; simplify_eq;
    (split; [by rewrite ?client_eta|]);
    first [ by left
          | by right; left
          | right; right; left;
            apply andb_prop in Hgate as [Hov Hhas];
            apply negb_true_iff in Hov; split_and!; eauto; done
          | right; right; right; split_and!; eauto ].
Qed.

End DownloadRuns.

(** ** Session setup: [login] and [init] *)

Ltac unfold_setup :=
  unfold mbind, Setup_bind, mret, Setup_ret, setupThrow, setupEmit,
    setupConfig, setupChange, setupOutcome, setupFinal, setupEvents,
    withConfig in *.

Ltac setup_simpl :=
  cbn beta iota zeta delta
    [setupOutcome setupFinal setupEvents fst snd app withConfig config state
     change_authToken change_credentials change_downloadDir
     authToken username password downloadDir] in *.

Section SetupFacts.

Variable senv : SetupEnv.

Lemma login_run (u p : option string) (c : Client) :
  login senv u p c =
  match fetchLoginData senv u p with
  | inl e => (Throw e, c, [EvFetchLoginData u p])
  | inr t =>
      (Return tt, withConfig (change_authToken (Some t)) c,
       [EvFetchLoginData u p; EvSetupLogVerbose "Got new authToken"])
  end.
Proof.
  unfold login. unfold_setup. simpl.
  by destruct (fetchLoginData senv u p).
Qed.

Lemma init_session_run (c : Client) :
  init_session senv c =
  if Boolean (authToken (config c)) then (Return tt, c, [])
  else if noCredentials (config c) then
    match requestCredentials senv with
    | inl e => (Throw e, c, [EvRequestCredentials])
    | inr credentials =>
        let c' := withConfig (change_credentials credentials) c in
        if noCredentials (config c')
        then (Throw (Error "Username or password not provided"), c',
              [EvRequestCredentials])
        else
          let l := login senv (username (config c')) (password (config c')) c' in
          (setupOutcome l, setupFinal l, EvRequestCredentials :: setupEvents l)
    end
  else login senv (username (config c)) (password (config c)) c.
Proof.
  unfold init_session, setupAwait. unfold_setup. simpl.
  destruct (Boolean (authToken (config c))); simpl; [done|].
  destruct (noCredentials (config c)); simpl.
  - destruct (requestCredentials senv) as [e|credentials]; simpl; [done|].
    destruct (noCredentials _); simpl; [done|].
    by destruct (login senv _ _ _) as [[[] ?] ?].
  - by destruct (login senv _ _ _) as [[[] ?] ?].
Qed.

Lemma init_downloadDir_run (c : Client) :
  init_downloadDir senv c =
  if Boolean (downloadDir (config c)) then (Return tt, c, [])
  else
    match requestDownloadLocation senv with
    | inl e => (Throw e, c, [EvRequestDownloadLocation])
    | inr dir =>
        let c' := withConfig (change_downloadDir dir) c in
        if Boolean dir
        then (Return tt, c', [EvRequestDownloadLocation])
        else (Throw (Error "Download directory not provided"), c',
              [EvRequestDownloadLocation])
    end.
Proof.
  unfold init_downloadDir, setupAwait. unfold_setup. simpl.
  destruct (Boolean (downloadDir (config c))); simpl; [done|].
  destruct (requestDownloadLocation senv) as [e|dir]; simpl; [done|].
  by destruct (Boolean dir).
Qed.

Lemma init_run (c : Client) :
  init senv c =
  match init_session senv c with
  | (Return _, c1, evs) =>
      let d := init_downloadDir senv c1 in
      (setupOutcome d, setupFinal d, (evs ++ setupEvents d)%list)
  | (Throw e, c1, evs) => (Throw e, c1, evs)
  | (OutOfFuel, c1, evs) => (OutOfFuel, c1, evs)
  end.
Proof.
  unfold init. unfold_setup.
  destruct (init_session senv c) as [[[[]| |] c1] evs]; try done.
  by destruct (init_downloadDir senv c1) as [[? ?] ?].
Qed.

End SetupFacts.

(** Splits a run of [init] into its paths: the token is there or not; the
    stored credentials are complete or the user is asked; the login
    succeeds or fails; the download directory is there, or given at the
    prompt, or not. *)
Ltac setup_paths senv c :=
  let Htok := fresh "Htok" in
  let Hcred := fresh "Hcred" in
  let Hprompt := fresh "Hprompt" in
  let Hasked := fresh "Hasked" in
  let Hlogin := fresh "Hlogin" in
  let Hdir := fresh "Hdir" in
  let Hlocation := fresh "Hlocation" in
  let Hgiven := fresh "Hgiven" in
  let signin :=
    (rewrite login_run;
     match goal with
     | |- context [match fetchLoginData senv ?u ?p with
                   | inl _ => _ | inr _ => _ end] =>
         destruct (fetchLoginData senv u p) as [?e|?t] eqn:Hlogin
     end) in
  rewrite init_run, init_session_run;
  destruct (Boolean (authToken (config c))) eqn:Htok;
  [| destruct (noCredentials (config c)) eqn:Hcred;
     [ destruct (requestCredentials senv) as [?e|?credentials] eqn:Hprompt;
       [| cbv zeta;
          match goal with
          | |- context [if noCredentials ?cfg then _ else _] =>
              destruct (noCredentials cfg) eqn:Hasked; [|signin]
          end ]
     | signin ] ];
  setup_simpl;
  try (rewrite init_downloadDir_run; setup_simpl;
       match goal with
       | |- context [if Boolean (downloadDir ?cfg) then _ else _] =>
           destruct (Boolean (downloadDir cfg)) eqn:Hdir;
           [| destruct (requestDownloadLocation senv) as [?e|?dir] eqn:Hlocation;
              [| match goal with
                 | |- context [if Boolean ?d then _ else _] =>
                     destruct (Boolean d) eqn:Hgiven
                 end ] ]
       end);
  setup_simpl.

Section SetupTheorems.

Variable senv : SetupEnv.

Lemma noCredentials_false (cfg : Config) :
  noCredentials cfg = false <->
  Boolean (username cfg) = true /\ Boolean (password cfg) = true.
Proof.
  unfold noCredentials.
  destruct (Boolean (username cfg)), (Boolean (password cfg)); simpl;
    intuition discriminate.
Qed.

(** X10.  [init] is a no-op on a client that has a token and a download
    directory: nothing is asked, nothing is called, nothing changes.  And
    a run of [init] that returns leaves such a client, provided the token
    the gateway issued is not empty: running [init] again does nothing. *)
Theorem init_idempotent (c : Client) :
  (Boolean (authToken (config c)) = true ->
   Boolean (downloadDir (config c)) = true ->
   init senv c = (Return tt, c, [])) /\
  (setupOutcome (init senv c) = Return tt ->
   let c1 := setupFinal (init senv c) in
   Boolean (authToken (config c1)) = true ->
   init senv c1 = (Return tt, c1, [])).
Proof.
  assert (Hnoop : forall c', Boolean (authToken (config c')) = true ->
                             Boolean (downloadDir (config c')) = true ->
                             init senv c' = (Return tt, c', [])).
  { intros c' Htok Hdir.
    by rewrite init_run, init_session_run, Htok, init_downloadDir_run, Hdir. }
  split; [apply Hnoop|].
  intros Hret c1 Htok1. apply Hnoop; [done|].
  unfold c1. clear c1 Htok1. revert Hret.
  setup_paths senv c; intros Hret; simplify_eq; done.
Qed.

(** X11.  When [init] returns, the client has a download directory, its
    ledger is as before, and either it had a token, which it keeps, no
    login being made; or it had none, and the one login made, with a
    non-empty username and password (the stored ones, or the ones given
    at the prompt), succeeded, and the token the gateway issued is now the
    client's token, whatever that token is. *)
Theorem init_postcondition (c : Client) :
  let run := init senv c in
  let c1 := setupFinal run in
  setupOutcome run = Return tt ->
  Boolean (downloadDir (config c1)) = true /\
  state c1 = state c /\
  ((Boolean (authToken (config c)) = true /\
    authToken (config c1) = authToken (config c) /\
    count isLogin (setupEvents run) = 0%nat) \/
   (Boolean (authToken (config c)) = false /\
    Boolean (username (config c1)) = true /\
    Boolean (password (config c1)) = true /\
    count isLogin (setupEvents run) = 1%nat /\
    In (EvFetchLoginData (username (config c1)) (password (config c1)))
       (setupEvents run) /\
    exists t,
      fetchLoginData senv (username (config c1)) (password (config c1)) = inr t /\
      authToken (config c1) = Some t)).
Proof.
  intros run c1. unfold c1, run, count.
  setup_paths senv c; intros Hret; simplify_eq;
    (split; [done|]); (split; [done|]);
    first [ by left
          | right; apply noCredentials_false in Hcred as [Hu Hp];
            split_and!; simpl; eauto
          | right; apply noCredentials_false in Hasked as [Hu Hp];
            split_and!; simpl; eauto ].
Qed.

(** X12.  [init] throws in five situations only, and never touches the
    ledger.  (a) The credentials prompt rejects: its error comes out as
    it is and the client is untouched.  (b) No token, incomplete stored
    credentials, and credentials still incomplete after the prompt: the
    error is "Username or password not provided" and no login is
    attempted.  (c) The login fails: the gateway's error comes out as it
    is, the token is as before, and the download directory is not asked
    for.  (d) The download-location prompt rejects: its error comes out
    as it is.  (e) No download directory, before or after the prompt:
    the error is "Download directory not provided".  In (d) and (e) a
    token obtained by the login made just before stays in the session. *)
Theorem init_errors (c : Client) (e : exn) :
  let run := init senv c in
  let c1 := setupFinal run in
  let tokenKept :=
    Boolean (authToken (config c)) = true \/
    exists t,
      fetchLoginData senv (username (config c1)) (password (config c1)) = inr t /\
      authToken (config c1) = Some t in
  setupOutcome run = Throw e ->
  state c1 = state c /\
  ((requestCredentials senv = inl e /\
    Boolean (authToken (config c)) = false /\
    noCredentials (config c) = true /\
    setupEvents run = [EvRequestCredentials] /\
    c1 = c) \/
   (e = Error "Username or password not provided" /\
    Boolean (authToken (config c)) = false /\
    noCredentials (config c) = true /\
    noCredentials (config c1) = true /\
    setupEvents run = [EvRequestCredentials] /\
    authToken (config c1) = authToken (config c)) \/
   (Boolean (authToken (config c)) = false /\
    fetchLoginData senv (username (config c1)) (password (config c1)) = inl e /\
    last (setupEvents run) =
      Some (EvFetchLoginData (username (config c1)) (password (config c1))) /\
    authToken (config c1) = authToken (config c) /\
    count isLocationPrompt (setupEvents run) = 0%nat) \/
   (requestDownloadLocation senv = inl e /\
    Boolean (downloadDir (config c)) = false /\
    downloadDir (config c1) = downloadDir (config c) /\
    last (setupEvents run) = Some EvRequestDownloadLocation /\
    tokenKept) \/
   (e = Error "Download directory not provided" /\
    Boolean (downloadDir (config c)) = false /\
    Boolean (downloadDir (config c1)) = false /\
    last (setupEvents run) = Some EvRequestDownloadLocation /\
    tokenKept)).
Proof.
  intros run c1 tokenKept. unfold tokenKept, c1, run, count.
  setup_paths senv c; intros He; simplify_eq;
    (split; [done|]);
    first [ by left; rewrite ?client_eta
          | by right; left
          | by right; right; left
          | right; right; right; left; split_and!; eauto; done
          | right; right; right; right; split_and!; eauto; done ].
Qed.

(** X13.  What [init] asks and calls.  It logs in at most once, only when
    the client has no token, and only with a non-empty username and
    password.  It asks for credentials at most once, only when there is
    no token and the stored credentials are incomplete.  It asks for the
    download location at most once, only when the client has no download
    directory; after a failed login or missing credentials it does not
    ask at all, so an error thrown after that question is the prompt's
    own or "Download directory not provided". *)
Theorem init_call_discipline (c : Client) :
  let run := init senv c in
  (forall u p, In (EvFetchLoginData u p) (setupEvents run) ->
     Boolean (authToken (config c)) = false /\
     Boolean u = true /\ Boolean p = true) /\
  (count isLogin (setupEvents run) <= 1)%nat /\
  (count isCredentialsPrompt (setupEvents run) <= 1)%nat /\
  (In EvRequestCredentials (setupEvents run) ->
     Boolean (authToken (config c)) = false /\ noCredentials (config c) = true) /\
  (count isLocationPrompt (setupEvents run) <= 1)%nat /\
  (In EvRequestDownloadLocation (setupEvents run) ->
     Boolean (downloadDir (config c)) = false /\
     forall e, setupOutcome run = Throw e ->
               e = Error "Download directory not provided" \/
               requestDownloadLocation senv = inl e).
Proof.
  intros run. unfold run, count.
  setup_paths senv c;
    try (apply noCredentials_false in Hcred as [Hu Hp]);
    try (apply noCredentials_false in Hasked as [Hu Hp]);
    split_and!; settle; try lia; split; settle; auto.
Qed.

(** X14.  [login] replaces the token and nothing else, and the new token
    is the one the other methods then present: after a successful login
    every page request of [getLibrary] and every metadata request of
    [downloadBook] carries the token the gateway just issued.  A failed
    login throws the gateway's error and leaves the client, with any
    earlier token, as it was. *)
Theorem login_token_is_used (u p : option string) (c : Client) :
  let run := login senv u p c in
  let c1 := setupFinal run in
  (forall e, fetchLoginData senv u p = inl e ->
     setupOutcome run = Throw e /\ c1 = c) /\
  (forall t, fetchLoginData senv u p = inr t ->
     setupOutcome run = Return tt /\
     c1 = withConfig (change_authToken (Some t)) c /\
     (forall env fuel tok page,
        In (EvFetchLibrary tok page) (events (getLibrary env fuel c1)) ->
        tok = Some t) /\
     (forall env b ov kz tok id,
        In (EvFetchDownloadMetadata tok id) (events (downloadBook env b ov kz c1)) ->
        tok = Some t /\ id = isbn b)).
Proof.
  intros run c1. unfold c1, run. clear c1 run. rewrite login_run. split.
  - intros e ->. done.
  - intros t ->. split; [done|]. split; [done|].
    cbn [setupFinal fst snd].
    remember (withConfig (change_authToken (Some t)) c) as c1 eqn:Hc1.
    assert (Htok1 : authToken (config c1) = Some t) by (by subst).
    clear Hc1. split.
    + intros env fuel tok page Hin.
      destruct (getLibrary_shape env fuel c1) as (k & _ & Hshape).
      cbv zeta in Hshape. rewrite Htok1 in Hshape.
      assert (Hreq : forall n, In (EvFetchLibrary tok page)
                (pageRequests (Some t) 1 n) -> tok = Some t).
      { intros n Hn. unfold pageRequests in Hn.
        apply list_elem_of_In, list_elem_of_fmap in Hn as (i & [= -> _] & _).
        done. }
      destruct Hshape as [(_ & _ & Hev)|(e & _ & _ & _ & _ & Hev)];
        rewrite Hev in Hin.
      * by apply Hreq in Hin.
      * apply in_app_or in Hin as [Hin|[|[]]]; [|done]. by apply Hreq in Hin.
    + intros env b ov kz tok id.
      download_paths env b ov kz c1; settle.
Qed.

End SetupTheorems.

(** ** How the methods compose *)

Section Composition.

Variable env : Env.
Variable senv : SetupEnv.

(** X15.  The logout of [getLibrary] does force a new login: after a run
    of [getLibrary] in which a page request failed, the next [init], on a
    client whose stored credentials are complete, logs in once with those
    credentials without asking the user, and a token the gateway then
    issues becomes the client's token. *)
Theorem relogin_after_listing_failure (fuel : nat) (c : Client) (p : Z)
    (e : exn) :
  Boolean (authToken (config c)) = true ->
  noCredentials (config c) = false ->
  In (EvFetchLibrary (authToken (config c)) p) (events (getLibrary env fuel c)) ->
  fetchLibrary env (authToken (config c)) p = inl e ->
  let c1 := final (getLibrary env fuel c) in
  let again := init senv c1 in
  c1 = withConfig (change_authToken None) c /\
  count isCredentialsPrompt (setupEvents again) = 0%nat /\
  count isLogin (setupEvents again) = 1%nat /\
  In (EvFetchLoginData (username (config c)) (password (config c)))
     (setupEvents again) /\
  (forall t,
     fetchLoginData senv (username (config c)) (password (config c)) = inr t ->
     authToken (config (setupFinal again)) = Some t).
Proof.
  intros Htok Hcred Hin Hfail c1 again.
  assert (Hc1 : c1 = withConfig (change_authToken None) c).
  { unfold c1. destruct (getLibrary_shape env fuel c) as (k & Hok & Hshape).
    cbv zeta in Hshape.
    destruct Hshape as [(_ & _ & Hev)|(e' & _ & _ & _ & Hfin & _)]; [|done].
    exfalso. rewrite Hev in Hin. unfold pageRequests in Hin.
    apply list_elem_of_In, list_elem_of_fmap in Hin as (i & [= ->] & Hi).
    apply elem_of_seq in Hi. destruct (Hok i ltac:(lia)) as [d Hd]. congruence. }
  split; [done|]. unfold again. rewrite Hc1. unfold count.
  assert (Hcred' : noCredentials
            (config (withConfig (change_authToken None) c)) = false) by done.
  setup_paths senv (withConfig (change_authToken None) c);
    simplify_eq; split_and!; simpl; auto; try congruence;
    intros t' Ht'; congruence.
Qed.

(** X16.  An absent token and an empty one are the same to the client:
    [getLibrary], [downloadBook] and [getDownloadMetadata] then throw "Not logged in" before asking anything of the gateway, the
    user or the transfer, and leave the client as it is. *)
Theorem empty_token_is_logged_out (c : Client) (fuel : nat) (b : Audiobook)
    (ov kz : bool) (id : string) :
  authToken (config c) = None \/ authToken (config c) = Some "" ->
  getLibrary env fuel c = (Throw (Error "Not logged in"), c, []) /\
  downloadBook env b ov kz c = (Throw (Error "Not logged in"), c, []) /\
  getDownloadMetadata env id c = (Throw (Error "Not logged in"), c, []).
Proof.
  intros Hnone.
  assert (Htok : Boolean (authToken (config c)) = false)
    by (by destruct Hnone as [-> | ->]).
  assert (Hlib : getLibrary env fuel c = (Throw (Error "Not logged in"), c, [])).
  { unfold getLibrary. run. by rewrite Htok. }
  split; [done|].
  split; [by apply downloadBook_not_logged_in|].
  unfold getDownloadMetadata. unfold_monad. by rewrite Htok.
Qed.

End Composition.

(** ** The further theorems at sample inputs *)

Lemma getLibrary_run_shape_witness :
  exists (k : nat) (e : exn),
    fetchLibrary Sample.secondPageFails (Some "tok") (1 + Z.of_nat k) = inl e /\
    events (getLibrary Sample.secondPageFails 5 Sample.loggedIn) =
      (pageRequests (Some "tok") 1 (S k) ++
       [EvLogErrorMessage ("Failed to fetch library: " +:+ message e)])%list.
Proof.
  destruct (getLibrary_run_shape Sample.secondPageFails 5 Sample.loggedIn)
    as (k & _ & [(_ & Hfin & _)|(e & _ & Hfail & _ & _ & Hev)]).
  - vm_compute in Hfin. discriminate Hfin.
  - exists k, e. split; [exact Hfail | exact Hev].
Defined.

Lemma getLibrary_snapshot_sound_complete_witness :
  let run := getLibrary Sample.twoPages 5 Sample.loggedIn in
  isbn Sample.bookC = "9780000000003" /\
  exists p data,
    In (EvFetchLibrary (Some "tok") p) (events run) /\
    fetchLibrary Sample.twoPages (Some "tok") p = inr data /\
    In Sample.bookC (audiobooks data).
Proof.
  destruct (getLibrary_snapshot_sound_complete Sample.twoPages 5 Sample.loggedIn
              (<[isbn Sample.bookC := Sample.bookC]>
                 (<[isbn Sample.bookB := Sample.bookB]>
                    (<[isbn Sample.bookA := Sample.bookA]> ∅))))
    as [Hsound _].
  - vm_compute. reflexivity.
  - apply (Hsound "9780000000003" Sample.bookC). vm_compute. reflexivity.
Defined.

Lemma getLibrary_endless_gateway_witness :
  let run := getLibrary SetupSample.endless 3 Sample.loggedIn in
  outcome run = OutOfFuel /\
  events run = [EvFetchLibrary (Some "tok") 1; EvFetchLibrary (Some "tok") 2;
                EvFetchLibrary (Some "tok") 3].
Proof.
  destruct (getLibrary_endless_gateway SetupSample.endless Sample.loggedIn eq_refl)
    with (fuel := 3%nat) as (Hout & _ & Hev).
  - intros p Hp. eexists. split; [reflexivity | simpl; lia].
  - intros run. split; [exact Hout | exact Hev].
Defined.

Lemma overwrite_prompt_discipline_witness :
  count isPrompt
    (events (downloadBook Sample.twoPages Sample.bookA false false Sample.hasA))
  = 1%nat.
Proof.
  destruct (overwrite_prompt_discipline Sample.twoPages Sample.bookA false false
              Sample.hasA) as (_ & _ & Hasked).
  apply (Hasked eq_refl Sample.metadataA eq_refl eq_refl).
  vm_compute. reflexivity.
Defined.

Lemma overwrite_accepted_replaces_witness :
  state (final (downloadBook Sample.overwriteYes Sample.bookA false false Sample.hasA))
    !! isbn Sample.bookA =
  Some {| book := Sample.bookA;
          path := "/books/A. Author, B. Writer/Saga/2 - The Book";
          meta := Sample.metadataA; zippedPaths := None |}.
Proof.
  destruct (overwrite_accepted_replaces Sample.overwriteYes Sample.bookA false
              Sample.hasA Sample.metadataA "A. Author, B. Writer"
              "/books/A. Author, B. Writer/Saga/2 - The Book" None)
    as (_ & _ & Hrec & _); [reflexivity..|].
  exact Hrec.
Defined.

Lemma downloadBook_other_records_witness :
  state (final (downloadBook Sample.twoPages Sample.bookB false false Sample.hasA))
    !! isbn Sample.bookA = Some Sample.recordA.
Proof.
  destruct (downloadBook_other_records Sample.twoPages Sample.bookB false false
              Sample.hasA) as [_ Hother].
  rewrite (Hother (isbn Sample.bookA)); [|discriminate].
  vm_compute. reflexivity.
Defined.

Lemma download_then_decline_witness :
  let c1 := final (downloadBook Sample.twoPages Sample.bookB false false
                     Sample.loggedIn) in
  let again := downloadBook Sample.twoPages Sample.bookB false true c1 in
  outcome again = Return "" /\ final again = c1.
Proof.
  destruct (download_then_decline Sample.twoPages Sample.bookB false false true
              Sample.loggedIn "A. Author/The Book" eq_refl eq_refl)
    as (_ & Hout & Hfin & _).
  intros c1 again. split; [exact Hout | exact Hfin].
Defined.

Lemma transfer_call_arguments_witness :
  exists m,
    fetchDownloadMetadata Sample.twoPages (Some "tok") (isbn Sample.bookB) = inr m /\
    ["u1"; "u2"] = url <$> parts m.
Proof.
  destruct (transfer_call_arguments Sample.twoPages Sample.bookB false false
              Sample.loggedIn) as (Hargs & _).
  destruct (Hargs "A. Author/The Book" ["u1"; "u2"] (Some "tok") false
              (Some "/books")) as (_ & _ & _ & Hm).
  - vm_compute. right. right. left. reflexivity.
  - exact Hm.
Defined.

Lemma downloadBook_errors_witness :
  final (downloadBook Sample.transferFails Sample.bookA false false Sample.loggedIn)
  = Sample.loggedIn.
Proof.
  destruct (downloadBook_errors Sample.transferFails Sample.bookA false false
              Sample.loggedIn DownloadFailed eq_refl) as [Hfin _].
  exact Hfin.
Defined.

Lemma init_idempotent_witness :
  let c1 := setupFinal (init SetupSample.accepts SetupSample.blankClient) in
  init SetupSample.accepts c1 = (Return tt, c1, []).
Proof.
  destruct (init_idempotent SetupSample.accepts SetupSample.blankClient)
    as [_ Hagain].
  exact (Hagain eq_refl eq_refl).
Defined.

Lemma init_postcondition_witness :
  let c1 := setupFinal (init SetupSample.accepts SetupSample.blankClient) in
  Boolean (downloadDir (config c1)) = true /\
  state c1 = state SetupSample.blankClient.
Proof.
  destruct (init_postcondition SetupSample.accepts SetupSample.blankClient eq_refl)
    as (Hdir & Hstate & _).
  intros c1. split; [exact Hdir | exact Hstate].
Defined.

Lemma init_errors_witness :
  state (setupFinal (init SetupSample.rejects SetupSample.blankClient)) =
  state SetupSample.blankClient.
Proof.
  destruct (init_errors SetupSample.rejects SetupSample.blankClient Sample.failure
              eq_refl) as [Hstate _].
  exact Hstate.
Defined.

Lemma init_call_discipline_witness :
  Boolean (authToken (config SetupSample.blankClient)) = false /\
  Boolean (Some "user") = true /\ Boolean (Some "secret") = true.
Proof.
  destruct (init_call_discipline SetupSample.accepts SetupSample.blankClient)
    as (Hlogin & _).
  apply (Hlogin (Some "user") (Some "secret")).
  vm_compute. right. left. reflexivity.
Defined.

Lemma login_token_is_used_witness :
  setupFinal (login SetupSample.accepts (Some "user") (Some "secret")
                SetupSample.returning) =
  withConfig (change_authToken (Some "fresh")) SetupSample.returning.
Proof.
  destruct (login_token_is_used SetupSample.accepts (Some "user") (Some "secret")
              SetupSample.returning) as [_ Hok].
  destruct (Hok "fresh" eq_refl) as (_ & Hfin & _).
  exact Hfin.
Defined.

Lemma relogin_after_listing_failure_witness :
  let c1 := final (getLibrary Sample.secondPageFails 5 SetupSample.returning) in
  authToken (config c1) = None /\
  authToken (config (setupFinal (init SetupSample.accepts c1))) = Some "fresh".
Proof.
  destruct (relogin_after_listing_failure Sample.secondPageFails SetupSample.accepts
              5 SetupSample.returning 2 Sample.failure) as (Hc1 & _ & _ & _ & Htok).
  - reflexivity.
  - reflexivity.
  - vm_compute. right. left. reflexivity.
  - reflexivity.
  - intros c1. split; [unfold c1; rewrite Hc1; reflexivity|].
    exact (Htok "fresh" eq_refl).
Defined.

Lemma empty_token_is_logged_out_witness :
  getLibrary Sample.twoPages 5 SetupSample.emptyToken =
    (Throw (Error "Not logged in"), SetupSample.emptyToken, []) /\
  downloadBook Sample.twoPages Sample.bookA false false SetupSample.emptyToken =
    (Throw (Error "Not logged in"), SetupSample.emptyToken, []).
Proof.
  destruct (empty_token_is_logged_out Sample.twoPages
              SetupSample.emptyToken 5 Sample.bookA false false "x")
    as (Hlib & Hdown & _).
  - right. reflexivity.
  - split; [exact Hlib | exact Hdown].
Defined.

